(** * A Jenkins pipeline and the service it smoke-tests

    Shallow embedding of [src/Jenkinsfile] (the declarative pipeline),
    of the pipeline listing documented in the README, and of
    [src/app.js] (the Express service the pipeline builds and probes),
    with the part of the web framework the service goes through.

    The pipeline is a list of stages, each a list of [echo] and [sh]
    steps.  Shell commands are kept as a small syntax whose rendering is
    the literal command line of the source; a host model (running
    containers, registry session, clock) gives them their exit codes. *)

From Stdlib Require Import NArith List String Ascii Bool Lia.
From Stdlib Require Import DecimalString DecimalFacts DecimalPos DecimalN.
From Stdlib Require HexadecimalString.
Import ListNotations.

Local Open Scope string_scope.
Local Open Scope N_scope.

(** ** Numbers inside interpolated strings *)

Module Text.

(** A number spliced into a Groovy GString or a JS template literal
    appears as its decimal digits. *)
Definition decimal (n : N) : string :=
  NilZero.string_of_uint (N.to_uint n).

(** How many digits [decimal n] has. *)
Definition digits (n : N) : N :=
  DecimalPos.Unsigned.usize (N.to_uint n).

(** Reading a decimal port operand back, as the container engine and
    the HTTP client do with the text they are handed. *)
Definition parse_decimal (s : string) : option N :=
  option_map N.of_uint (NilZero.uint_of_string s).

End Text.

(** ** Entity tags: SHA-1, base64 and hexadecimal *)

Module Digest.

(** What the web framework hashes a response body with when it derives
    the body's entity tag. *)

Definition bytes_of_string (s : string) : list N :=
  map N_of_ascii (list_ascii_of_string s).

Definition mask32 : N := 0xFFFFFFFF.

Definition add32 (a b : N) : N := N.land (a + b) mask32.

Definition rotl (k x : N) : N :=
  N.land (N.lor (N.shiftl x k) (N.shiftr x (32 - k))) mask32.

Definition not32 (x : N) : N := N.lxor x mask32.

(** The [k] low bytes of [x], most significant first. *)
Fixpoint big_endian (k : nat) (x : N) : list N :=
  match k with
  | O => []
  | S k' => (big_endian k' (N.shiftr x 8) ++ [N.land x 255])%list
  end.

Definition pad (msg : list N) : list N :=
  let len := List.length msg in
  let zeros := Nat.modulo (64 - Nat.modulo (len + 9) 64) 64 in
  (msg ++ [128] ++ repeat 0 zeros ++ big_endian 8 (8 * N.of_nat len))%list.

Fixpoint chunks (fuel size : nat) (l : list N) : list (list N) :=
  match fuel, l with
  | O, _ | _, [] => []
  | S fuel', _ => firstn size l :: chunks fuel' size (skipn size l)
  end.

Definition word_of (bs : list N) : N :=
  fold_left (fun acc b => N.lor (N.shiftl acc 8) b) bs 0.

(** The message schedule, latest word first. *)
Definition extend (rw : list N) : list N :=
  rotl 1 (N.lxor (N.lxor (nth 2 rw 0) (nth 7 rw 0))
                 (N.lxor (nth 13 rw 0) (nth 15 rw 0))) :: rw.

Definition schedule (block : list N) : list N :=
  rev (Nat.iter 64 extend (rev (map word_of (chunks 16 4 block)))).

Definition State : Type := (N * N * N * N * N)%type.

Definition round (st : State) (iw : nat * N) : State :=
  let '(a, b, c, d, e) := st in
  let (i, w) := iw in
  let (f, k) :=
    if Nat.ltb i 20 then
      (N.lor (N.land b c) (N.land (not32 b) d), 0x5A827999)
    else if Nat.ltb i 40 then
      (N.lxor (N.lxor b c) d, 0x6ED9EBA1)
    else if Nat.ltb i 60 then
      (N.lor (N.lor (N.land b c) (N.land b d)) (N.land c d), 0x8F1BBCDC)
    else
      (N.lxor (N.lxor b c) d, 0xCA62C1D6) in
  (add32 (add32 (add32 (add32 (rotl 5 a) f) e) k) w, a, rotl 30 b, c, d).

Definition compress (h : State) (block : list N) : State :=
  let '(a, b, c, d, e) :=
    fold_left round (combine (seq 0 80) (schedule block)) h in
  let '(h0, h1, h2, h3, h4) := h in
  (add32 h0 a, add32 h1 b, add32 h2 c, add32 h3 d, add32 h4 e).

Definition initial : State :=
  (0x67452301, 0xEFCDAB89, 0x98BADCFE, 0x10325476, 0xC3D2E1F0).

(** The twenty bytes of the SHA-1 digest. *)
Definition sha1 (msg : list N) : list N :=
  let padded := pad msg in
  let '(h0, h1, h2, h3, h4) :=
    fold_left compress (chunks (List.length padded) 64 padded) initial in
  (big_endian 4 h0 ++ big_endian 4 h1 ++ big_endian 4 h2
     ++ big_endian 4 h3 ++ big_endian 4 h4)%list.

Definition alphabet : string :=
  "ABCDEFGHIJKLMNOPQRSTUVWXYZabcdefghijklmnopqrstuvwxyz0123456789+/".

Definition sextet (v : N) : string :=
  match String.get (N.to_nat v) alphabet with
  | Some c => String c ""
  | None => ""
  end.

(** Base64 without the padding characters. *)
Fixpoint base64 (bs : list N) : string :=
  match bs with
  | [] => ""
  | [a] =>
      sextet (N.shiftr a 2) ++ sextet (N.shiftl (N.land a 3) 4)
  | [a; b] =>
      sextet (N.shiftr a 2)
      ++ sextet (N.lor (N.shiftl (N.land a 3) 4) (N.shiftr b 4))
      ++ sextet (N.shiftl (N.land b 15) 2)
  | a :: b :: c :: rest =>
      sextet (N.shiftr a 2)
      ++ sextet (N.lor (N.shiftl (N.land a 3) 4) (N.shiftr b 4))
      ++ sextet (N.lor (N.shiftl (N.land b 15) 2) (N.shiftr c 6))
      ++ sextet (N.land c 63)
      ++ base64 rest
  end.

Definition hex (n : N) : string :=
  HexadecimalString.NilZero.string_of_uint (N.to_hex_uint n).

End Digest.

(** ** HTTP messages *)

Module Http.

(** The request methods of RFC 9110 and [PATCH]; [CONNECT], which never
    reaches a request handler, is left out. *)
Inductive Method : Type :=
  GET | HEAD | POST | PUT | DELETE | OPTIONS | TRACE | PATCH.

Definition method_eqb (a b : Method) : bool :=
  match a, b with
  | GET, GET | HEAD, HEAD | POST, POST | PUT, PUT | DELETE, DELETE
  | OPTIONS, OPTIONS | TRACE, TRACE | PATCH, PATCH => true
  | _, _ => false
  end.

Definition method_name (m : Method) : string :=
  match m with
  | GET => "GET" | HEAD => "HEAD" | POST => "POST" | PUT => "PUT"
  | DELETE => "DELETE" | OPTIONS => "OPTIONS" | TRACE => "TRACE"
  | PATCH => "PATCH"
  end.

(** A request as a handler sees it: the URL already split into the
    path and the query string, the header names in lower case. *)
Record Request : Type := {
  method : Method;
  path : string;
  query : string;
  headers : list (string * string);
  body : string
}.

(** [req.headers[name]] *)
Definition header (name : string) (req : Request) : option string :=
  option_map snd (find (fun h => String.eqb (fst h) name) (headers req)).

Record Response : Type := {
  status : N;
  payload : string
}.

(** The 2xx class of status codes. *)
Definition successful (code : N) : bool := (200 <=? code) && (code <? 300).

(** The request a bare [curl URL] sends to the root of a server. *)
Definition get_root : Request :=
  {| method := GET; path := "/"; query := ""; headers := []; body := "" |}.

End Http.

(** ** The web framework: routing, [res.send] and conditional requests *)

(** The part of Express that [src/app.js] calls, with the rules of its
    4.x line for entity tags and for the freshness of a request. *)

Module Express.

Import Http.

Definition quote : string := String (ascii_of_nat 34) "".

(** The weak entity tag the framework derives from a body: the length
    in hexadecimal and the first 27 characters of the base64 SHA-1. *)
Definition etag (entity : string) : string :=
  "W/" ++ quote ++ Digest.hex (N.of_nat (String.length entity)) ++ "-"
    ++ Digest.base64 (Digest.sha1 (Digest.bytes_of_string entity)) ++ quote.

Fixpoint split (sep : ascii) (s : string) : list string :=
  match s with
  | EmptyString => [EmptyString]
  | String c rest =>
      if Ascii.eqb c sep then EmptyString :: split sep rest
      else match split sep rest with
           | [] => [String c EmptyString]
           | t :: ts => String c t :: ts
           end
  end.

Fixpoint drop_leading (space : ascii -> bool) (s : string) : string :=
  match s with
  | EmptyString => EmptyString
  | String c rest => if space c then drop_leading space rest else s
  end.

Fixpoint drop_trailing (space : ascii -> bool) (s : string) : string :=
  match s with
  | EmptyString => EmptyString
  | String c rest =>
      match drop_trailing space rest with
      | EmptyString => if space c then EmptyString else String c EmptyString
      | rest' => String c rest'
      end
  end.

Definition trim (space : ascii -> bool) (s : string) : string :=
  drop_trailing space (drop_leading space s).

Definition blank (c : ascii) : bool := Ascii.eqb c " ".

Definition whitespace (c : ascii) : bool :=
  let k := N_of_ascii c in (k =? 32) || ((9 <=? k) && (k <=? 13)).

(** A header counts when it is there and not empty. *)
Definition given (v : option string) : bool :=
  match v with
  | Some s => negb (String.eqb s "")
  | None => false
  end.

(** [Cache-Control] lists [no-cache]. *)
Definition no_cache (v : option string) : bool :=
  match v with
  | Some s =>
      existsb (fun t => String.eqb (trim whitespace t) "no-cache") (split "," s)
  | None => false
  end.

(** No tag listed in [If-None-Match] is the tag of the response, weak
    or strong. *)
Definition tag_stale (list tag : string) : bool :=
  negb (existsb
          (fun t => String.eqb t tag || String.eqb t ("W/" ++ tag)
                    || String.eqb ("W/" ++ t) tag)
          (map (trim blank) (split "," list))).

(** Whether the copy the client holds is still good, for a response
    that carries the entity tag [tag] and no [Last-Modified]. *)
Definition fresh (req : Request) (tag : string) : bool :=
  let modifiedSince := header "if-modified-since" req in
  let noneMatch := header "if-none-match" req in
  if negb (given modifiedSince) && negb (given noneMatch) then false
  else if no_cache (header "cache-control" req) then false
  else if given noneMatch
          && negb (String.eqb (match noneMatch with Some s => s | None => "" end) "*")
          && tag_stale (match noneMatch with Some s => s | None => "" end) tag
       then false
  else if given modifiedSince then false
  else true.

(** [req.fresh]: only for [GET] and [HEAD], and a status of 2xx or 304. *)
Definition req_fresh (req : Request) (status : N) (tag : string) : bool :=
  (method_eqb (method req) GET || method_eqb (method req) HEAD)
  && (((200 <=? status) && (status <? 300)) || (status =? 304))
  && fresh req tag.

(** The response object a handler is handed: it knows its request, the
    status code starts at 200 and nothing has been sent yet. *)
Record Res : Type := {
  req : Request;
  statusCode : N;
  sent : option string
}.

Definition fresh_res (r : Request) : Res :=
  {| req := r; statusCode := 200; sent := None |}.

(** [res.send(text)]: a fresh request is answered 304; a 204 or 304
    goes out without body, and so does the answer to a [HEAD]. *)
Definition send (text : string) (res : Res) : Res :=
  let code :=
    if req_fresh (req res) (statusCode res) (etag text) then 304
    else statusCode res in
  let chunk := if (code =? 204) || (code =? 304) then "" else text in
  {| req := req res;
     statusCode := code;
     sent := Some (if method_eqb (method (req res)) HEAD then "" else chunk) |}.

Definition Handler : Type := Request -> Res -> Res.

(** A route registered for one method and one literal path. *)
Record Route : Type := {
  route_method : Method;
  route_path : string;
  route_handler : Handler
}.

(** A [GET] route also handles [HEAD]. *)
Definition handles (m : Method) (r : Route) : bool :=
  method_eqb m (route_method r)
  || (method_eqb m HEAD && method_eqb (route_method r) GET).

Definition matches (r : Request) (rt : Route) : bool :=
  handles (method r) rt && String.eqb (path r) (route_path rt).

(** The methods the routes of a path allow. *)
Definition allowed (table : list Route) (p : string) : list Method :=
  flat_map (fun rt =>
              if String.eqb p (route_path rt)
              then (if method_eqb (route_method rt) GET then [GET; HEAD]
                    else [route_method rt])
              else []) table.

(** The first route registered for the request's method and path runs.
    An [OPTIONS] request for a path that has routes is answered by the
    framework with the list of their methods.  [None]: nothing handles
    the request. *)
Definition dispatch (table : list Route) (r : Request) : option Res :=
  match find (matches r) table with
  | Some rt => Some (route_handler rt r (fresh_res r))
  | None =>
      if method_eqb (method r) OPTIONS then
        match allowed table (path r) with
        | [] => None
        | ms => Some (send (String.concat "," (map method_name ms))
                        (fresh_res r))
        end
      else None
  end.

(** What goes on the wire for a handled request. *)
Definition reply (res : Res) : Response :=
  {| status := statusCode res;
     payload := match sent res with Some text => text | None => "" end |}.

End Express.

(** ** The service, [src/app.js] *)

Module App.

Import Http Express.

(** [const PORT = 8080;] *)
Definition PORT : N := 8080.

(** [(req, res) => { res.send('Hello World!'); }] *)
Definition home : Handler :=
  fun _req res => send "Hello World!" res.

(** [app.get('/', ...)]: the application's routing table. *)
Definition routes : list Route :=
  [ {| route_method := GET; route_path := "/"; route_handler := home |} ].

(** The answer to a request that is handled. *)
Definition respond (r : Request) : option Response :=
  option_map reply (dispatch routes r).

(** The status line of any answer: a request nothing handles gets the
    framework's 404. *)
Definition status_of (r : Request) : N :=
  match respond r with
  | Some a => status a
  | None => 404
  end.






End App.

(** ** Shell commands of the [sh] steps *)

Module Shell.

Inductive Command : Type :=
| npm_ci (only_production : bool)
| npm_test
| docker_build (tag : string)
| docker_login (user pass : string)
| docker_push (tag : string)
| docker_run (hostPort name image : string)
| sleep (seconds : N)
| curl_f (hostPort : string)
| or_exit_1 (c : Command)
| docker_stop (name : string)
| docker_rmi (tag : string)
| docker_logout.

(** The text handed to the shell. *)
Fixpoint command_line (c : Command) : string :=
  match c with
  | npm_ci true => "npm ci --only=production"
  | npm_ci false => "npm ci"
  | npm_test => "npm test"
  | docker_build tag => "docker build -t " ++ tag ++ " ."
  | docker_login user pass =>
      "echo " ++ pass ++ " | docker login -u " ++ user ++ " --password-stdin"
  | docker_push tag => "docker push " ++ tag
  | docker_run hostPort name image =>
      "docker run --rm -d -p " ++ hostPort ++ ":8080 --name " ++ name
        ++ " " ++ image
  | sleep seconds => "sleep " ++ Text.decimal seconds
  | curl_f hostPort => "curl -f http://localhost:" ++ hostPort
  | or_exit_1 c => command_line c ++ " || exit 1"
  | docker_stop name => "docker stop " ++ name
  | docker_rmi tag => "docker rmi " ++ tag
  | docker_logout => "docker logout"
  end.

End Shell.

(** ** The execution host: container engine and HTTP client *)

Module Host.

Import Shell.

(** What an image does once started: after how many seconds, if ever,
    it listens ([None]: never, be it that the program hangs or that it
    has exited), on which port, and the status it answers with.  A
    container stays on the host until it is stopped; that the engine
    removes the container of a program that exits is not modelled. *)
Record Artifact : Type := {
  boot : option N;
  binds : N;
  answer : Http.Request -> N
}.

Record Container : Type := {
  name : string;
  hostPort : N;
  containerPort : N;
  image : string;
  uptime : N;
  program : Artifact
}.

Record State : Type := {
  containers : list Container;
  logged_in : bool;
  requests : list (N * Http.Request)
}.

(** What the host cannot decide by itself: the exit status of the
    package manager and of the build and registry commands, and what
    an image reference resolves to ([None]: it cannot be started). *)
Record World : Type := {
  tool : Command -> N;
  resolve : string -> option Artifact
}.

Definition valid_port (p : N) : bool := (1 <=? p) && (p <=? 65535).

Definition named (nm : string) (c : Container) : bool := String.eqb (name c) nm.
Definition on_port (p : N) (c : Container) : bool := hostPort c =? p.

Definition age (s : N) (c : Container) : Container :=
  {| name := name c; hostPort := hostPort c; containerPort := containerPort c;
     image := image c; uptime := uptime c + s; program := program c |}.

(** Whether a program, [s] seconds after its start, listens on [port]. *)
Definition listening_after (s : N) (a : Artifact) (port : N) : bool :=
  match boot a with
  | Some t => (t <=? s) && (binds a =? port)
  | None => false
  end.

(** The container answers on its published port once its program
    listens on the container side of the mapping. *)
Definition ready (c : Container) : bool :=
  listening_after (uptime c) (program c) (containerPort c).

Definition with_containers (cs : list Container) (h : State) : State :=
  {| containers := cs; logged_in := logged_in h; requests := requests h |}.

Definition with_session (b : bool) (h : State) : State :=
  {| containers := containers h; logged_in := b; requests := requests h |}.

Definition with_request (p : N) (r : Http.Request) (h : State) : State :=
  {| containers := containers h; logged_in := logged_in h;
     requests := requests h ++ [(p, r)] |}.

(** [docker run --rm -d -p P:8080 --name NAME IMAGE]: refused (status
    125) when the port operand is no valid port, when the name or the
    host port is taken, or when the image cannot be started. *)
Definition run_container (port nm img : string) (w : World) (h : State)
  : N * State :=
  match Text.parse_decimal port, resolve w img with
  | Some p, Some a =>
      if valid_port p
         && negb (existsb (named nm) (containers h))
         && negb (existsb (on_port p) (containers h))
      then (0, with_containers
                 (containers h ++
                    [{| name := nm; hostPort := p; containerPort := 8080;
                        image := img; uptime := 0; program := a |}]) h)
      else (125, h)
  | _, _ => (125, h)
  end.

(** [docker stop NAME]: a container started with [--rm] is removed when
    it stops; status 1 when there is no such container. *)
Definition stop_container (nm : string) (h : State) : N * State :=
  if existsb (named nm) (containers h)
  then (0, with_containers (filter (fun c => negb (named nm c)) (containers h)) h)
  else (1, h).

(** The exit status of [curl -f] for the status line it got: 0 for a
    final answer below 400 (200 to 399), 22 for an HTTP error (400 and
    above), and a failure as well for an answer below 200, which is no
    final answer (1 stands for the status curl then reports). *)
Definition curl_status (code : N) : N :=
  if 400 <=? code then 22
  else if 200 <=? code then 0
  else 1.

(** [curl -f http://localhost:P]: one GET of the root; status 3 when
    the URL has no usable port, 7 when nothing answers on the port,
    else what the status line of the answer gives. *)
Definition probe (port : string) (h : State) : N * State :=
  match Text.parse_decimal port with
  | Some p =>
      if valid_port p then
        let h' := with_request p Http.get_root h in
        match find (on_port p) (containers h) with
        | Some c =>
            if ready c
            then (curl_status (answer (program c) Http.get_root), h')
            else (7, h')
        | None => (7, h')
        end
      else (3, h)
  | None => (3, h)
  end.

Fixpoint exec (w : World) (c : Command) (h : State) : N * State :=
  match c with
  | docker_run port nm img => run_container port nm img w h
  | sleep s => (0, with_containers (map (age s) (containers h)) h)
  | curl_f port => probe port h
  | or_exit_1 c' =>
      let (e, h') := exec w c' h in ((if e =? 0 then 0 else 1), h')
  | docker_stop nm => stop_container nm h
  | docker_login _ _ =>
      let e := tool w c in (e, if e =? 0 then with_session true h else h)
  | docker_logout =>
      let e := tool w c in (e, if e =? 0 then with_session false h else h)
  | npm_ci _ | npm_test | docker_build _ | docker_push _ | docker_rmi _ =>
      (tool w c, h)
  end.

End Host.

(** ** The orchestrator: stages, steps and post conditions *)

Module Jenkins.

Inductive Step : Type :=
| echo (message : string)
| sh (script : Shell.Command).

Record Stage : Type := {
  label : string;
  steps : list Step
}.

Record Pipeline : Type := {
  stages : list Stage;
  post_always : list Step;
  post_cleanup : list Step
}.

(** A build in progress: the host it runs on, its console output and
    the commands it has run so far with their exit status. *)
Record Build : Type := {
  host : Host.State;
  console : list string;
  trace : list (Shell.Command * N)
}.

Definition start (h : Host.State) : Build :=
  {| host := h; console := []; trace := [] |}.

Definition say (m : string) (b : Build) : Build :=
  {| host := host b; console := console b ++ [m]; trace := trace b |}.

Definition ran (c : Shell.Command) (e : N) (h : Host.State) (b : Build) : Build :=
  {| host := h; console := console b; trace := trace b ++ [(c, e)] |}.

(** Steps run in order; an [sh] step whose script exits non-zero fails
    the enclosing block and the steps after it do not run. *)
Fixpoint run_steps (w : Host.World) (ss : list Step) (b : Build) : bool * Build :=
  match ss with
  | [] => (true, b)
  | echo m :: rest => run_steps w rest (say m b)
  | sh c :: rest =>
      let (e, h) := Host.exec w c (host b) in
      if e =? 0 then run_steps w rest (ran c e h b) else (false, ran c e h b)
  end.

(** The scripts of the [sh] steps of a block, in order. *)
Fixpoint scripts (ss : list Step) : list Shell.Command :=
  match ss with
  | [] => []
  | echo _ :: rest => scripts rest
  | sh c :: rest => c :: scripts rest
  end.

(** The scripts of a list of stages, in order. *)
Definition stage_scripts (sts : list Stage) : list Shell.Command :=
  flat_map (fun st => scripts (steps st)) sts.

Inductive Status : Type := Passed | Failed | Skipped.

Definition status_eqb (a b : Status) : bool :=
  match a, b with
  | Passed, Passed | Failed, Failed | Skipped, Skipped => true
  | _, _ => false
  end.

(** Stages run in order; after a failed stage the remaining ones are
    skipped. *)
Fixpoint run_stages (w : Host.World) (sts : list Stage) (b : Build)
  : list (string * Status) * Build :=
  match sts with
  | [] => ([], b)
  | st :: rest =>
      let (ok, b') := run_steps w (steps st) b in
      if ok then
        let (r, b'') := run_stages w rest b' in ((label st, Passed) :: r, b'')
      else
        ((label st, Failed) :: map (fun s => (label s, Skipped)) rest, b')
  end.

Inductive Result : Type := SUCCESS | FAILURE.

Record Run : Type := {
  result : Result;
  report : list (string * Status);
  final : Build
}.

(** The stages, then the [always] block of [post], then its [cleanup]
    block, whatever the stages did. *)
Definition run (w : Host.World) (p : Pipeline) (h : Host.State) : Run :=
  let (rep, b1) := run_stages w (stages p) (start h) in
  let (ok2, b2) := run_steps w (post_always p) b1 in
  let (ok3, b3) := run_steps w (post_cleanup p) b2 in
  {| result :=
       if forallb (fun r => status_eqb (snd r) Passed) rep && ok2 && ok3
       then SUCCESS else FAILURE;
     report := rep;
     final := b3 |}.

End Jenkins.

(** ** The pipeline, [src/Jenkinsfile] *)

Module Pipeline.

Import Shell Jenkins.

Definition DOCKERHUB_CREDENTIALS_ID : string := "dockerhub-credentials".
Definition DOCKERHUB_USERNAME : string := "adityajareda".
Definition DOCKER_IMAGE_NAME : string := "nodejs-demo-app".

(** ["${DOCKERHUB_USERNAME}/${DOCKER_IMAGE_NAME}:latest"] *)
Definition imageTag : string :=
  DOCKERHUB_USERNAME ++ "/" ++ DOCKER_IMAGE_NAME ++ ":latest".

(** [def containerName = "nodejs-test-${BUILD_NUMBER}"] *)
Definition containerName (BUILD_NUMBER : N) : string :=
  "nodejs-test-" ++ Text.decimal BUILD_NUMBER.

(** [def testPort = "90${BUILD_NUMBER}"] *)
Definition testPort (BUILD_NUMBER : N) : string :=
  "90" ++ Text.decimal BUILD_NUMBER.

(** The README's listing of the same stage:
    [def testPort = "909${BUILD_NUMBER % 100}"]. *)
Definition testPort_README (BUILD_NUMBER : N) : string :=
  "909" ++ Text.decimal (BUILD_NUMBER mod 100).

Definition install_dependencies : Stage :=
  {| label := "Install Dependencies";
     steps := [ echo "Installing Node.js dependencies ...";
                sh (npm_ci true) ] |}.

Definition run_tests : Stage :=
  {| label := "Run Tests";
     steps := [ echo "Running tests...";
                sh npm_test ] |}.

Definition build_docker_image : Stage :=
  {| label := "Build Docker Image";
     steps := [ echo "Building the Docker image...";
                sh (docker_build imageTag) ] |}.

(** The [withCredentials] block binds [DOCKER_USER] and [DOCKER_PASS]
    from the credentials store for the two steps it encloses. *)
Definition push_to_docker_hub (DOCKER_USER DOCKER_PASS : string) : Stage :=
  {| label := "Push to Docker Hub";
     steps := [ echo "Pushing image to Docker Hub...";
                sh (docker_login DOCKER_USER DOCKER_PASS);
                sh (docker_push imageTag) ] |}.

Definition deploy_and_test (BUILD_NUMBER : N) : Stage :=
  {| label := "Deploy and Test";
     steps :=
       [ echo ("Deploying test container: " ++ containerName BUILD_NUMBER
                 ++ " on port " ++ testPort BUILD_NUMBER);
         sh (docker_run (testPort BUILD_NUMBER) (containerName BUILD_NUMBER)
               imageTag);
         echo "Pausing for 5 seconds to allow the application to start...";
         sh (sleep 5);
         echo "Testing application endpoint...";
         sh (or_exit_1 (curl_f (testPort BUILD_NUMBER)));
         echo "Test successful! Stopping container...";
         sh (docker_stop (containerName BUILD_NUMBER)) ] |}.

Definition always : list Step :=
  [ echo "Pipeline finished. Cleaning up...";
    sh docker_logout ].

Definition pipeline (BUILD_NUMBER : N) (DOCKER_USER DOCKER_PASS : string)
  : Pipeline :=
  {| stages := [ install_dependencies;
                 run_tests;
                 build_docker_image;
                 push_to_docker_hub DOCKER_USER DOCKER_PASS;
                 deploy_and_test BUILD_NUMBER ];
     post_always := always;
     post_cleanup := [] |}.

(** Whether the five commands ahead of the probe stage (install, test,
    build, login, push) all exit with status 0 in a world. *)
Definition upstream_ok (w : Host.World) (DOCKER_USER DOCKER_PASS : string)
  : bool :=
  (Host.tool w (npm_ci true) =? 0) && (Host.tool w npm_test =? 0)
  && (Host.tool w (docker_build imageTag) =? 0)
  && (Host.tool w (docker_login DOCKER_USER DOCKER_PASS) =? 0)
  && (Host.tool w (docker_push imageTag) =? 0).

End Pipeline.

(** ** Concrete worlds *)

Module Scenario.

Import Shell Host.

(** The image built from [src/app.js]: it listens on [App.PORT] a
    second after start and answers as the application does. *)
Definition service : Artifact :=
  {| boot := Some 1; binds := App.PORT; answer := App.status_of |}.

(** An image whose program answers every request with one status. *)
Definition answering (code : N) : Artifact :=
  {| boot := Some 1; binds := 8080; answer := fun _ => code |}.

(** An image whose program never listens. *)
Definition crashed : Artifact :=
  {| boot := None; binds := 8080; answer := fun _ => 200 |}.


(** A host with no container running and no registry session. *)
Definition idle : State :=
  {| containers := []; logged_in := false; requests := [] |}.

(** Every tool succeeds and the image reference resolves to [a]. *)
Definition fair (a : Artifact) : World :=
  {| tool := fun _ => 0; resolve := fun _ => Some a |}.

(** As [fair], except that [npm test] exits with status 1. *)
Definition failing_tests (a : Artifact) : World :=
  {| tool := fun c => match c with npm_test => 1 | _ => 0 end;
     resolve := fun _ => Some a |}.

End Scenario.


(** * Properties *)

(** ** Decimal rendering *)

Section DecimalFacts.

Import DecimalPos.Unsigned.

Lemma to_uint_nonnil (n : N) : N.to_uint n <> Decimal.Nil.
Proof.
  destruct n as [|p]; simpl.
  - discriminate.
  - apply DecimalPos.Unsigned.to_uint_nonnil.
Qed.

Lemma decimal_digits (n : N) :
  Text.decimal n = NilEmpty.string_of_uint (N.to_uint n).
Proof.
  unfold Text.decimal. generalize (to_uint_nonnil n).
  destruct (N.to_uint n); simpl; congruence.
Qed.

Lemma parse_decimal_decimal (n : N) :
  Text.parse_decimal (Text.decimal n) = Some n.
Proof.
  unfold Text.parse_decimal, Text.decimal.
  rewrite NilZero.usu by apply to_uint_nonnil.
  simpl. now rewrite DecimalN.Unsigned.of_to.
Qed.

Lemma decimal_inj (a b : N) : Text.decimal a = Text.decimal b -> a = b.
Proof.
  intros H. apply (f_equal Text.parse_decimal) in H.
  rewrite !parse_decimal_decimal in H. congruence.
Qed.

Lemma usize_revapp (d d' : Decimal.uint) :
  usize (Decimal.revapp d d') = usize d + usize d'.
Proof.
  revert d'. induction d; intros d'; simpl; try rewrite IHd; simpl; lia.
Qed.

Lemma of_lu_bound (d : Decimal.uint) : of_lu d < 10 ^ usize d.
Proof.
  induction d; cbn [usize of_lu]; rewrite ?N.pow_succ_r', ?N.pow_0_r; lia.
Qed.

Lemma length_string_of_uint (d : Decimal.uint) :
  N.of_nat (String.length (NilEmpty.string_of_uint d)) = usize d.
Proof.
  induction d; cbn [usize NilEmpty.string_of_uint String.length];
    rewrite ?Nat2N.inj_succ, ?IHd; reflexivity.
Qed.

Lemma length_decimal (n : N) :
  N.of_nat (String.length (Text.decimal n)) = Text.digits n.
Proof.
  rewrite decimal_digits. apply length_string_of_uint.
Qed.

(** The value of the digits [9], [0] followed by the digits [d]. *)
Lemma of_uint_90 (d : Decimal.uint) :
  N.of_uint (Decimal.D9 (Decimal.D0 d)) = 90 * 10 ^ usize d + N.of_uint d.
Proof.
  unfold N.of_uint. rewrite !of_uint_alt. unfold Decimal.rev.
  cbn [Decimal.revapp]. rewrite of_lu_revapp. cbn [of_lu].
  unfold Decimal.rev. lia.
Qed.

Lemma of_uint_909 (d : Decimal.uint) :
  N.of_uint (Decimal.D9 (Decimal.D0 (Decimal.D9 d)))
  = 909 * 10 ^ usize d + N.of_uint d.
Proof.
  unfold N.of_uint. rewrite !of_uint_alt. unfold Decimal.rev.
  cbn [Decimal.revapp]. rewrite of_lu_revapp. cbn [of_lu].
  unfold Decimal.rev. lia.
Qed.

Lemma below_pow_digits (n : N) : n < 10 ^ Text.digits n.
Proof.
  unfold Text.digits.
  rewrite <- (DecimalN.Unsigned.of_to n) at 1.
  unfold N.of_uint. rewrite of_uint_alt.
  eapply N.lt_le_trans; [apply of_lu_bound|].
  unfold Decimal.rev. rewrite usize_revapp. cbn [usize]. rewrite N.add_0_r. lia.
Qed.

Lemma digits_lower (n k : N) : 10 ^ k <= n -> k < Text.digits n.
Proof.
  intros H. destruct (N.lt_ge_cases k (Text.digits n)) as [|Hle]; [assumption|].
  exfalso. pose proof (below_pow_digits n).
  assert (10 ^ Text.digits n <= 10 ^ k) by (apply N.pow_le_mono_r; lia). lia.
Qed.

End DecimalFacts.

(** ** Derived names and ports *)

(** The number the text of [testPort] denotes. *)
Lemma parse_testPort (n : N) :
  Text.parse_decimal (Pipeline.testPort n) = Some (90 * 10 ^ Text.digits n + n).
Proof.
  unfold Pipeline.testPort, Text.parse_decimal. rewrite decimal_digits.
  cbn [append NilZero.uint_of_string NilEmpty.uint_of_string].
  rewrite NilEmpty.usu. cbn [uint_of_char option_map].
  rewrite of_uint_90. unfold Text.digits.
  now rewrite DecimalN.Unsigned.of_to.
Qed.

Lemma parse_testPort_README (n : N) :
  Text.parse_decimal (Pipeline.testPort_README n)
  = Some (909 * 10 ^ Text.digits (n mod 100) + n mod 100).
Proof.
  unfold Pipeline.testPort_README, Text.parse_decimal. rewrite decimal_digits.
  cbn [append NilZero.uint_of_string NilEmpty.uint_of_string].
  rewrite NilEmpty.usu. cbn [uint_of_char option_map].
  rewrite of_uint_909. unfold Text.digits.
  now rewrite DecimalN.Unsigned.of_to.
Qed.

Lemma digits_below_100 (n : N) :
  n < 100 -> Text.digits n = if n <? 10 then 1 else 2.
Proof.
  intros H. destruct n as [|q]; [reflexivity|].
  do 7 (try destruct q as [q|q|]); try lia; reflexivity.
Qed.

Lemma testPort_value_large (n : N) :
  100 <= n -> 65535 < 90 * 10 ^ Text.digits n + n.
Proof.
  intros Hn.
  assert (Hd : 2 < Text.digits n) by (apply digits_lower; simpl; lia).
  assert (Hp : 10 ^ 3 <= 10 ^ Text.digits n) by (apply N.pow_le_mono_r; lia).
  change (10 ^ 3) with 1000 in Hp. lia.
Qed.

Lemma testPort_value_small (n : N) :
  n < 100 ->
  exists port,
    Text.parse_decimal (Pipeline.testPort n) = Some port /\ Host.valid_port port = true.
Proof.
  intros Hn. exists (90 * 10 ^ Text.digits n + n).
  split; [apply parse_testPort|].
  rewrite digits_below_100 by assumption.
  unfold Host.valid_port. rewrite andb_true_iff, !N.leb_le.
  destruct (N.ltb_spec n 10);
    [change (10 ^ 1) with 10|change (10 ^ 2) with 100]; lia.
Qed.

Lemma containerName_inj (a b : N) :
  Pipeline.containerName a = Pipeline.containerName b -> a = b.
Proof.
  unfold Pipeline.containerName. cbn [append]. intros H.
  apply decimal_inj. congruence.
Qed.

Lemma testPort_inj (a b : N) :
  Pipeline.testPort a = Pipeline.testPort b -> a = b.
Proof.
  unfold Pipeline.testPort. cbn [append]. intros H.
  apply decimal_inj. congruence.
Qed.

Lemma parse_testPort_inj (a b : N) :
  Text.parse_decimal (Pipeline.testPort a)
  = Text.parse_decimal (Pipeline.testPort b) -> a = b.
Proof.
  unfold Pipeline.testPort, Text.parse_decimal. rewrite !decimal_digits.
  cbn [append NilZero.uint_of_string NilEmpty.uint_of_string].
  rewrite !NilEmpty.usu. cbn [uint_of_char option_map].
  intros H.
  assert (H' : N.of_uint (Decimal.D9 (Decimal.D0 (N.to_uint a)))
               = N.of_uint (Decimal.D9 (Decimal.D0 (N.to_uint b))))
    by congruence.
  apply DecimalN.Unsigned.of_iff in H'.
  cbn [Decimal.unorm] in H'. injection H' as H'.
  now apply DecimalN.Unsigned.to_uint_inj.
Qed.

(** ** The host *)

Section HostFacts.

Import Shell Host.

Lemma named_age nm s c : named nm (age s c) = named nm c.
Proof. reflexivity. Qed.

Lemma on_port_age p s c : on_port p (age s c) = on_port p c.
Proof. reflexivity. Qed.

Lemma existsb_named_age nm s cs :
  existsb (named nm) (map (age s) cs) = existsb (named nm) cs.
Proof.
  induction cs as [|c cs IH]; cbn [map existsb]; [reflexivity|].
  now rewrite named_age, IH.
Qed.

Lemma find_on_port_fresh p cs c :
  existsb (on_port p) cs = false -> on_port p c = true ->
  find (on_port p) (cs ++ [c])%list = Some c.
Proof.
  induction cs as [|x cs IH]; cbn [app find existsb]; intros Hno Hc.
  - now rewrite Hc.
  - apply orb_false_elim in Hno as [Hx Hcs]. rewrite Hx. now apply IH.
Qed.

Lemma filter_not_named_fresh nm cs c :
  existsb (named nm) cs = false -> named nm c = true ->
  filter (fun x => negb (named nm x)) (cs ++ [c])%list = cs.
Proof.
  induction cs as [|x cs IH]; cbn [app filter existsb]; intros Hno Hc.
  - now rewrite Hc.
  - apply orb_false_elim in Hno as [Hx Hcs]. rewrite Hx. cbn [negb].
    f_equal. now apply IH.
Qed.

(** What a successful [docker run] has checked and done. *)
Lemma run_container_ok port nm img w h h' :
  run_container port nm img w h = (0, h') ->
  exists p a,
    Text.parse_decimal port = Some p /\ resolve w img = Some a
    /\ valid_port p = true
    /\ existsb (named nm) (containers h) = false
    /\ existsb (on_port p) (containers h) = false
    /\ h' = with_containers
              (containers h ++
                 [{| name := nm; hostPort := p; containerPort := 8080;
                     image := img; uptime := 0; program := a |}]) h.
Proof.
  unfold run_container.
  destruct (Text.parse_decimal port) as [p|]; [|discriminate].
  destruct (resolve w img) as [a|]; [|discriminate].
  destruct (valid_port p) eqn:Hv; cbn [andb]; [|discriminate].
  destruct (existsb (named nm) (containers h)) eqn:Hn; cbn [andb negb];
    [discriminate|].
  destruct (existsb (on_port p) (containers h)) eqn:Hp; cbn [andb negb];
    [discriminate|].
  intros [= <-]. exists p, a. repeat split; assumption.
Qed.

(** A refused [docker run] leaves the host as it was. *)
Lemma run_container_refused port nm img w h :
  fst (run_container port nm img w h) <> 0 ->
  run_container port nm img w h = (125, h).
Proof.
  unfold run_container.
  destruct (Text.parse_decimal port) as [p|]; [|reflexivity].
  destruct (resolve w img) as [a|]; [|reflexivity].
  destruct (_ && _ && _); [|reflexivity].
  cbn [fst]. congruence.
Qed.

End HostFacts.

(** ** The probe stage *)

Section StageFacts.

Import Shell Host Jenkins Pipeline.

Variable w : World.
Variable n : N.

Let runCmd := docker_run (testPort n) (containerName n) imageTag.
Let probeCmd := or_exit_1 (curl_f (testPort n)).
Let stopCmd := docker_stop (containerName n).
Let announce : string :=
  "Deploying test container: " ++ containerName n ++ " on port " ++ testPort n.

Lemma deploy_refused b :
  fst (run_container (testPort n) (containerName n) imageTag w (host b)) <> 0 ->
  exists b',
    run_steps w (steps (deploy_and_test n)) b = (false, b')
    /\ host b' = host b
    /\ trace b' = (trace b ++ [(runCmd, 125)])%list
    /\ console b' = (console b ++ [announce])%list.
Proof.
  intros H. apply run_container_refused in H.
  cbn [deploy_and_test steps run_steps Host.exec say host].
  rewrite H. cbn [N.eqb]. eexists. split; [reflexivity|]. repeat split.
Qed.

Lemma deploy_started b h1 :
  run_container (testPort n) (containerName n) imageTag w (host b) = (0, h1) ->
  exists b1,
    host b1 = with_containers (map (age 5) (containers h1)) h1
    /\ trace b1 = (trace b ++ [(runCmd, 0); (sleep 5, 0)])%list
    /\ console b1
       = (console b
            ++ [announce;
                "Pausing for 5 seconds to allow the application to start...";
                "Testing application endpoint..."])%list
    /\ run_steps w (steps (deploy_and_test n)) b
       = let (e, hp) := probe (testPort n) (host b1) in
         let b2 := ran probeCmd (if e =? 0 then 0 else 1) hp b1 in
         if e =? 0 then
           let (e', h') := stop_container (containerName n) hp in
           (e' =? 0,
            ran stopCmd e' h' (say "Test successful! Stopping container..." b2))
         else (false, b2).
Proof.
  intros H.
  exists (say "Testing application endpoint..."
            (ran (sleep 5) 0 (with_containers (map (age 5) (containers h1)) h1)
               (say "Pausing for 5 seconds to allow the application to start..."
                  (ran runCmd 0 h1
                     (say ("Deploying test container: " ++ containerName n
                             ++ " on port " ++ testPort n) b))))).
  split; [reflexivity|]. split; [|split].
  - cbn [trace say ran]. now rewrite <- List.app_assoc.
  - cbn [console say ran]. now rewrite <- !List.app_assoc.
  - cbn [deploy_and_test steps run_steps Host.exec say host].
    rewrite H. cbn [N.eqb ran host].
    destruct (probe (testPort n) _) as [e hp].
    destruct (e =? 0); cbn [N.eqb ran host say].
    + destruct (stop_container (containerName n) hp) as [e' h'].
      destruct (e' =? 0); reflexivity.
    + reflexivity.
Qed.

Lemma curl_status_zero (code : N) :
  (curl_status code =? 0) = (200 <=? code) && (code <? 400).
Proof.
  unfold curl_status.
  destruct (N.leb_spec 400 code), (N.leb_spec 200 code), (N.ltb_spec code 400);
    try reflexivity; lia.
Qed.

Lemma probe_found port p h c :
  Text.parse_decimal port = Some p -> valid_port p = true ->
  find (on_port p) (containers h) = Some c ->
  probe port h
  = (if ready c then curl_status (answer (program c) Http.get_root) else 7,
     with_request p Http.get_root h).
Proof.
  intros Hp Hv Hf. unfold probe. rewrite Hp, Hv. cbv zeta. rewrite Hf.
  destruct (ready c); reflexivity.
Qed.

(** The stage on a host that accepts the container: it passes exactly
    when the container is ready after the pause and the client accepts
    its answer, and only then is the container stopped. *)
Lemma deploy_outcome b p a :
  Text.parse_decimal (testPort n) = Some p ->
  resolve w imageTag = Some a ->
  valid_port p = true ->
  existsb (named (containerName n)) (containers (host b)) = false ->
  existsb (on_port p) (containers (host b)) = false ->
  let c := {| name := containerName n; hostPort := p; containerPort := 8080;
              image := imageTag; uptime := 5; program := a |} in
  let healthy :=
    listening_after 5 a 8080 && (curl_status (answer a Http.get_root) =? 0) in
  exists b',
    run_steps w (steps (deploy_and_test n)) b = (healthy, b')
    /\ containers (host b')
       = (map (age 5) (containers (host b)) ++ (if healthy then [] else [c]))%list
    /\ requests (host b') = (requests (host b) ++ [(p, Http.get_root)])%list
    /\ logged_in (host b') = logged_in (host b)
    /\ trace b'
       = (trace b ++ [(runCmd, 0); (sleep 5, 0);
                      (probeCmd, if healthy then 0 else 1)]
            ++ (if healthy then [(stopCmd, 0)] else []))%list
    /\ console b'
       = (console b
            ++ [announce;
                "Pausing for 5 seconds to allow the application to start...";
                "Testing application endpoint..."]
            ++ (if healthy
                then ["Test successful! Stopping container..."] else []))%list.
Proof.
  intros Hp Ha Hv Hname Hport c healthy.
  assert (Hrun : run_container (testPort n) (containerName n) imageTag w (host b)
                 = (0, with_containers
                         (containers (host b) ++
                            [{| name := containerName n; hostPort := p;
                                containerPort := 8080; image := imageTag;
                                uptime := 0; program := a |}]) (host b))).
  { unfold run_container. rewrite Hp, Ha, Hv, Hname, Hport. reflexivity. }
  destruct (deploy_started b _ Hrun) as (b1 & Hh1 & Ht1 & Hc1 & ->).
  cbn [containers with_containers] in Hh1.
  rewrite map_app in Hh1. cbn [map] in Hh1. fold c in Hh1.
  change (age 5 _) with c in Hh1.
  assert (Hfind : find (on_port p) (containers (host b1)) = Some c).
  { rewrite Hh1. cbn [containers with_containers].
    apply find_on_port_fresh.
    - clear -Hport. induction (containers (host b)) as [|x xs IH];
        cbn [map existsb] in *; [reflexivity|].
      apply orb_false_elim in Hport as [Hx Hxs]. rewrite on_port_age, Hx.
      now apply IH.
    - unfold on_port. cbn [hostPort c]. apply N.eqb_refl. }
  rewrite (probe_found _ _ _ _ Hp Hv Hfind). cbn [program c].
  subst healthy. change (listening_after 5 a 8080) with (ready c).
  destruct (ready c); cbn [andb];
    [destruct (curl_status (answer a Http.get_root) =? 0)|cbn [N.eqb]].
  - assert (Hstop : stop_container (containerName n)
                      (with_request p Http.get_root (host b1))
                    = (0, with_containers (map (age 5) (containers (host b)))
                            (with_request p Http.get_root (host b1)))).
    { unfold stop_container. cbn [containers with_request]. rewrite Hh1.
      cbn [containers with_containers].
      rewrite existsb_app. cbn [existsb]. unfold named at 2. cbn [name c].
      rewrite String.eqb_refl, orb_true_r.
      rewrite filter_not_named_fresh; [reflexivity| |].
      - now rewrite existsb_named_age.
      - unfold named. cbn [name c]. apply String.eqb_refl. }
    rewrite Hstop. cbn [N.eqb].
    eexists. split; [reflexivity|].
    cbn [host ran containers with_containers requests with_request logged_in
         trace console say].
    rewrite Hh1, Ht1, Hc1. cbn [requests logged_in with_containers].
    rewrite List.app_nil_r, <- !List.app_assoc. cbn [app]. repeat split; reflexivity.
  - eexists. split; [reflexivity|].
    cbn [host ran containers with_containers requests with_request logged_in
         trace console say].
    rewrite Hh1, Ht1, Hc1. cbn [containers requests logged_in with_containers].
    rewrite ?List.app_nil_r, <- !List.app_assoc. cbn [app].
    repeat split; reflexivity.
  - eexists. split; [reflexivity|].
    cbn [host ran containers with_containers requests with_request logged_in
         trace console say].
    rewrite Hh1, Ht1, Hc1. cbn [containers requests logged_in with_containers].
    rewrite ?List.app_nil_r, <- !List.app_assoc. cbn [app].
    repeat split; reflexivity.
Qed.

End StageFacts.

(** ** The whole run *)

Section RunFacts.

Import Shell Host Jenkins Pipeline.

Variable w : World.
Variable n : N.
Variables u p : string.

(** The post section of the pipeline: one [docker logout], always. *)
Lemma run_post h :
  let sb := run_stages w (stages (pipeline n u p)) (start h) in
  let e := tool w docker_logout in
  run w (pipeline n u p) h
  = {| result := if forallb (fun r => status_eqb (snd r) Passed) (fst sb)
                    && (e =? 0)
                 then SUCCESS else FAILURE;
       report := fst sb;
       final := ran docker_logout e
                  (if e =? 0 then with_session false (host (snd sb))
                   else host (snd sb))
                  (say "Pipeline finished. Cleaning up..." (snd sb)) |}.
Proof.
  intros sb e. subst sb e. unfold run.
  destruct (run_stages w (stages (pipeline n u p)) (start h)) as [rep b1].
  cbn [post_always post_cleanup pipeline always run_steps Host.exec host say
       fst snd].
  destruct (tool w docker_logout =? 0);
    cbn [run_steps]; rewrite ?andb_true_r, ?andb_false_r; reflexivity.
Qed.

Lemma upstream_failed h :
  upstream_ok w u p = false ->
  exists rep b,
    run_stages w (stages (pipeline n u p)) (start h) = (rep, b)
    /\ In ("Deploy and Test", Skipped) rep
    /\ forallb (fun r => status_eqb (snd r) Passed) rep = false
    /\ containers (host b) = containers h
    /\ requests (host b) = requests h
    /\ (forall c e, In (c, e) (trace b) ->
          c = npm_ci true \/ c = npm_test \/ c = docker_build imageTag
          \/ c = docker_login u p \/ c = docker_push imageTag)
    /\ (forall m, In m (console b) ->
          m = "Installing Node.js dependencies ..." \/ m = "Running tests..."
          \/ m = "Building the Docker image..."
          \/ m = "Pushing image to Docker Hub...").
Proof.
  unfold upstream_ok. intros H.
  cbn [stages pipeline run_stages install_dependencies run_tests
       build_docker_image push_to_docker_hub steps run_steps Host.exec
       host start say ran label map].
  destruct (tool w (npm_ci true) =? 0) eqn:E1; cbn [andb] in H.
  2:{ do 2 eexists. split; [reflexivity|]. cbn. intuition congruence. }
  destruct (tool w npm_test =? 0) eqn:E2; cbn [andb] in H.
  2:{ do 2 eexists. split; [reflexivity|]. cbn. intuition congruence. }
  destruct (tool w (docker_build imageTag) =? 0) eqn:E3; cbn [andb] in H.
  2:{ do 2 eexists. split; [reflexivity|]. cbn. intuition congruence. }
  destruct (tool w (docker_login u p) =? 0) eqn:E4; cbn [andb] in H.
  2:{ do 2 eexists. split; [reflexivity|]. cbn. intuition congruence. }
  rewrite H.
  do 2 eexists. split; [reflexivity|]. cbn. intuition congruence.
Qed.

Lemma upstream_passed h :
  upstream_ok w u p = true ->
  exists b4,
    host b4 = with_session true h
    /\ trace b4 = [(npm_ci true, 0); (npm_test, 0); (docker_build imageTag, 0);
                   (docker_login u p, 0); (docker_push imageTag, 0)]
    /\ console b4 = ["Installing Node.js dependencies ..."; "Running tests...";
                     "Building the Docker image...";
                     "Pushing image to Docker Hub..."]
    /\ run_stages w (stages (pipeline n u p)) (start h)
       = let (ok, b) := run_steps w (steps (deploy_and_test n)) b4 in
         ([("Install Dependencies", Passed); ("Run Tests", Passed);
           ("Build Docker Image", Passed); ("Push to Docker Hub", Passed);
           ("Deploy and Test", if ok then Passed else Failed)], b).
Proof.
  unfold upstream_ok. intros H.
  apply andb_prop in H as [H H5]. apply andb_prop in H as [H H4].
  apply andb_prop in H as [H H3]. apply andb_prop in H as [H1 H2].
  exists {| host := with_session true h;
            console := ["Installing Node.js dependencies ...";
                        "Running tests..."; "Building the Docker image...";
                        "Pushing image to Docker Hub..."];
            trace := [(npm_ci true, 0); (npm_test, 0);
                      (docker_build imageTag, 0);
                      (docker_login u p, 0); (docker_push imageTag, 0)] |}.
  split; [reflexivity|]. split; [reflexivity|]. split; [reflexivity|].
  cbn [stages pipeline run_stages install_dependencies run_tests
       build_docker_image push_to_docker_hub steps run_steps Host.exec
       host start say ran label map].
  rewrite H1, H2, H3, H4, H5.
  apply N.eqb_eq in H1, H2, H3, H4, H5. rewrite H1, H2, H3, H4, H5.
  cbn [host start say ran console trace app].
  destruct (run_steps w (steps (deploy_and_test n)) _) as [[|] b]; reflexivity.
Qed.

End RunFacts.

(** ** Port and name derivation *)

(** C1. The pipeline source derives the port of run 100 as the text
    [90100]: the run identifier is appended whole, not reduced modulo
    100 as the README's listing does, and the number it denotes is
    above 65535, so it is no port the container engine can publish. *)
Theorem testPort_run_100_out_of_range :
  Pipeline.testPort 100 = "90100"
  /\ Text.parse_decimal (Pipeline.testPort 100) = Some 90100
  /\ Host.valid_port 90100 = false
  /\ Pipeline.testPort 100 <> Pipeline.testPort (100 mod 100)
  /\ fst (Host.run_container (Pipeline.testPort 100)
            (Pipeline.containerName 100) Pipeline.imageTag
            (Scenario.fair Scenario.service) Scenario.idle) = 125.
Proof.
  repeat split; try reflexivity.
  intros H. apply testPort_inj in H. discriminate.
Qed.

(** C2. Two runs whose identifiers differ, and differ modulo 100, get
    different container names and different ports, both as the text
    passed on the command line and as the number it denotes. *)
Theorem distinct_runs_do_not_collide (a b : N) :
  a <> b -> a mod 100 <> b mod 100 ->
  Pipeline.containerName a <> Pipeline.containerName b
  /\ Pipeline.testPort a <> Pipeline.testPort b
  /\ Text.parse_decimal (Pipeline.testPort a)
     <> Text.parse_decimal (Pipeline.testPort b).
Proof.
  intros Hab _. repeat split; intros H; apply Hab.
  - now apply containerName_inj.
  - now apply testPort_inj.
  - now apply parse_testPort_inj.
Qed.

Lemma distinct_runs_do_not_collide_witness :
  Pipeline.containerName 7 <> Pipeline.containerName 108
  /\ Pipeline.testPort 7 <> Pipeline.testPort 108
  /\ Text.parse_decimal (Pipeline.testPort 7)
     <> Text.parse_decimal (Pipeline.testPort 108).
Proof.
  apply (distinct_runs_do_not_collide 7 108); [lia|].
  vm_compute. discriminate.
Defined.

(** C9. The pipeline source applies no modulo: the port is the digits
    [90] followed by all the digits of the run identifier, and from
    run 100 on the number it denotes is above 65535, outside the range
    of TCP ports. *)
Theorem testPort_overflows_from_run_100 (n : N) :
  100 <= n ->
  Pipeline.testPort n = "90" ++ Text.decimal n
  /\ Pipeline.testPort n <> Pipeline.testPort (n mod 100)
  /\ exists p,
       Text.parse_decimal (Pipeline.testPort n) = Some p
       /\ p = 90 * 10 ^ Text.digits n + n
       /\ 65535 < p
       /\ Host.valid_port p = false.
Proof.
  intros Hn. split; [reflexivity|]. split.
  - intros H. apply testPort_inj in H.
    pose proof (N.mod_upper_bound n 100). lia.
  - exists (90 * 10 ^ Text.digits n + n).
    split; [apply parse_testPort|]. split; [reflexivity|].
    pose proof (testPort_value_large n Hn).
    split; [assumption|].
    unfold Host.valid_port. apply andb_false_iff. right.
    apply N.leb_gt. assumption.
Qed.

Lemma testPort_overflows_from_run_100_witness :
  Pipeline.testPort 123 = "90" ++ Text.decimal 123
  /\ Pipeline.testPort 123 <> Pipeline.testPort (123 mod 100)
  /\ exists p,
       Text.parse_decimal (Pipeline.testPort 123) = Some p
       /\ p = 90 * 10 ^ Text.digits 123 + 123
       /\ 65535 < p
       /\ Host.valid_port p = false.
Proof.
  apply (testPort_overflows_from_run_100 123). lia.
Defined.

(** ** The service *)

Section ServiceFacts.

Import Http Express.



(** What [res.send] puts on the wire for a GET request. *)
Lemma send_get (text : string) (r : Request) :
  method r = GET ->
  reply (send text (fresh_res r))
  = if fresh r (etag text)
    then {| status := 304; payload := "" |}
    else {| status := 200; payload := text |}.
Proof.
  intros Hm. unfold send, req_fresh, fresh_res, reply.
  cbn [req statusCode sent]. rewrite Hm. cbn [method_eqb orb andb].
  change ((200 <=? 200) && (200 <? 300) || (200 =? 304)) with true.
  cbn [andb]. destruct (fresh r (etag text)); reflexivity.
Qed.

(** The answer of the root route: 304 without body to a fresh request,
    200 with the greeting otherwise. *)
Lemma respond_home (r : Request) :
  method r = GET -> path r = "/" ->
  App.respond r
  = Some (if fresh r (etag "Hello World!")
          then {| status := 304; payload := "" |}
          else {| status := 200; payload := "Hello World!" |}).
Proof.
  intros Hm Hp. unfold App.respond, dispatch, App.routes.
  assert (Hmatch : matches r {| route_method := GET; route_path := "/";
                                route_handler := App.home |} = true).
  { unfold matches, handles. cbn [route_method route_path].
    now rewrite Hm, Hp. }
  cbn [find]. rewrite Hmatch. cbn [route_handler option_map].
  unfold App.home. now rewrite send_get.
Qed.

Lemma status_of_get_root : App.status_of get_root = 200.
Proof.
  unfold App.status_of. now rewrite (respond_home get_root eq_refl eq_refl).
Qed.

End ServiceFacts.







(** ** Order of stages *)

Section StageOrder.

Import Shell Host Jenkins Pipeline.

(** Every command a block of steps runs is the script of one of its
    [sh] steps. *)
Lemma run_steps_trace w ss : forall b ok b',
  run_steps w ss b = (ok, b') ->
  exists tr,
    trace b' = (trace b ++ tr)%list
    /\ forall c e, In (c, e) tr -> In (sh c) ss.
Proof.
  induction ss as [|s ss IH]; intros b ok b' H; cbn [run_steps] in H.
  - injection H as <- <-. exists []. rewrite List.app_nil_r. now split.
  - destruct s as [m|c].
    + apply IH in H as (tr & Ht & Hin). exists tr. split; [exact Ht|].
      intros c e Hc. right. eauto.
    + destruct (Host.exec w c (host b)) as [e h].
      destruct (e =? 0).
      * apply IH in H as (tr & Ht & Hin). exists ((c, e) :: tr).
        cbn [trace ran] in Ht. rewrite <- List.app_assoc in Ht.
        split; [exact Ht|].
        intros c' e' [Hc|Hc]; [left; congruence|right; eauto].
      * injection H as <- <-. exists [(c, e)]. split; [reflexivity|].
        intros c' e' [Hc|[]]. left. congruence.
Qed.

Lemma run_stages_trace w sts : forall b rep b',
  run_stages w sts b = (rep, b') ->
  exists tr,
    trace b' = (trace b ++ tr)%list
    /\ forall c e, In (c, e) tr -> exists st, In st sts /\ In (sh c) (steps st).
Proof.
  induction sts as [|st sts IH]; intros b rep b' H; cbn [run_stages] in H.
  - injection H as <- <-. exists []. rewrite List.app_nil_r. now split.
  - destruct (run_steps w (steps st) b) as [ok b1] eqn:E1.
    apply run_steps_trace in E1 as (tr1 & Ht1 & Hin1).
    destruct ok.
    + destruct (run_stages w sts b1) as [r b2] eqn:E2.
      injection H as <- <-.
      apply IH in E2 as (tr2 & Ht2 & Hin2).
      exists (tr1 ++ tr2)%list. split.
      * now rewrite Ht2, Ht1, List.app_assoc.
      * intros c e Hc. apply in_app_or in Hc as [Hc|Hc].
        -- exists st. split; [now left|eauto].
        -- destruct (Hin2 _ _ Hc) as (st' & Hs & Hc'). exists st'.
           split; [now right|assumption].
    + injection H as <- <-. exists tr1. split; [exact Ht1|].
      intros c e Hc. exists st. split; [now left|eauto].
Qed.

(** C7. In every run the registry logout of the post section is the
    last command executed, after everything the stages ran and after
    its announcement in the console, whether the stages passed or one
    of them failed; no stage runs it. *)
Theorem logout_runs_after_every_run w n u p h :
  let r := run w (pipeline n u p) h in
  let b := snd (run_stages w (stages (pipeline n u p)) (start h)) in
  trace (final r) = (trace b ++ [(docker_logout, tool w docker_logout)])%list
  /\ console (final r) = (console b ++ ["Pipeline finished. Cleaning up..."])%list
  /\ (forall e, ~ In (docker_logout, e) (trace b))
  /\ report r = fst (run_stages w (stages (pipeline n u p)) (start h)).
Proof.
  intros r b. subst r b. rewrite run_post.
  cbn [final report trace console ran say]. repeat split.
  intros e H.
  destruct (run_stages w (stages (pipeline n u p)) (start h)) as [rep b] eqn:E.
  apply run_stages_trace in E as (tr & Ht & Hin).
  cbn [snd] in H. rewrite Ht in H. cbn [trace start app] in H.
  destruct (Hin _ _ H) as (st & Hst & Hc).
  cbn [stages pipeline In] in Hst.
  repeat (destruct Hst as [<-|Hst];
          [cbn [steps install_dependencies run_tests build_docker_image
                push_to_docker_hub deploy_and_test In] in Hc;
           intuition discriminate|]).
  exact Hst.
Qed.

(** C6. When the install, test, build, login or push command exits
    non-zero, the run fails, the probe stage is skipped and none of its
    commands runs: no container is started and no request is sent.
    Every command that did run belongs to the stages before it or is
    the final logout. *)
Theorem upstream_failure_skips_probe w n u p h :
  tool w (npm_ci true) <> 0 \/ tool w npm_test <> 0
  \/ tool w (docker_build imageTag) <> 0
  \/ tool w (docker_login u p) <> 0
  \/ tool w (docker_push imageTag) <> 0 ->
  let r := run w (pipeline n u p) h in
  result r = FAILURE
  /\ In ("Deploy and Test", Skipped) (report r)
  /\ (forall c e, In (c, e) (trace (final r)) ->
        ~ In (sh c) (steps (deploy_and_test n)))
  /\ containers (host (final r)) = containers h
  /\ requests (host (final r)) = requests h.
Proof.
  intros H r. subst r.
  assert (Hup : upstream_ok w u p = false).
  { unfold upstream_ok. rewrite !andb_false_iff, !N.eqb_neq. tauto. }
  destruct (upstream_failed w n u p h Hup)
    as (rep & b & E & Hskip & Hfail & Hcs & Hrq & Htr & _).
  rewrite run_post, E. cbn [fst snd result report final].
  rewrite Hfail. cbn [andb]. split; [reflexivity|]. split; [exact Hskip|].
  cbn [trace host ran say]. split; [|split].
  - intros c e Hin. apply in_app_or in Hin as [Hin|[Hin|[]]].
    + apply Htr in Hin.
      cbn [steps deploy_and_test In].
      intuition (subst; discriminate).
    + injection Hin as <- _. cbn [steps deploy_and_test In].
      intuition discriminate.
  - destruct (tool w docker_logout =? 0); exact Hcs.
  - destruct (tool w docker_logout =? 0); exact Hrq.
Qed.

Lemma upstream_failure_skips_probe_witness :
  let r := run (Scenario.failing_tests Scenario.service)
               (pipeline 7 "user" "secret") Scenario.idle in
  result r = FAILURE
  /\ In ("Deploy and Test", Skipped) (report r)
  /\ (forall c e, In (c, e) (trace (final r)) ->
        ~ In (sh c) (steps (deploy_and_test 7)))
  /\ containers (host (final r)) = containers Scenario.idle
  /\ requests (host (final r)) = requests Scenario.idle.
Proof.
  apply (upstream_failure_skips_probe
           (Scenario.failing_tests Scenario.service) 7 "user" "secret"
           Scenario.idle).
  right. left. cbn. discriminate.
Defined.

End StageOrder.

(** ** The three ways a run can go *)

Section RunCases.

Import Shell Host Jenkins Pipeline.

Variable w : World.
Variable n : N.
Variables u p : string.
Variable h : State.

Let upstream_trace : list (Command * N) :=
  [(npm_ci true, 0); (npm_test, 0); (docker_build imageTag, 0);
   (docker_login u p, 0); (docker_push imageTag, 0)].

Let passed4 : list (string * Status) :=
  [("Install Dependencies", Passed); ("Run Tests", Passed);
   ("Build Docker Image", Passed); ("Push to Docker Hub", Passed)].

(** The container engine refuses the test container. *)
Lemma run_refused :
  upstream_ok w u p = true ->
  fst (run_container (testPort n) (containerName n) imageTag w
         (with_session true h)) <> 0 ->
  let r := run w (pipeline n u p) h in
  result r = FAILURE
  /\ report r = (passed4 ++ [("Deploy and Test", Failed)])%list
  /\ trace (final r)
     = (upstream_trace
          ++ [(docker_run (testPort n) (containerName n) imageTag, 125);
              (docker_logout, tool w docker_logout)])%list
  /\ containers (host (final r)) = containers h
  /\ requests (host (final r)) = requests h
  /\ ~ In "Test successful! Stopping container..." (console (final r)).
Proof.
  intros Hup Hrun r. subst r.
  destruct (upstream_passed w n u p h Hup) as (b4 & Hh4 & Ht4 & Hc4 & E).
  rewrite <- Hh4 in Hrun.
  destruct (deploy_refused w n b4 Hrun) as (b' & E' & Hh' & Ht' & Hc').
  rewrite E' in E. rewrite run_post, E.
  cbn [fst snd result report final forallb status_eqb andb trace console host
       ran say].
  rewrite Ht', Ht4, Hh', Hh4, Hc', Hc4. repeat split.
  - destruct (tool w docker_logout =? 0); reflexivity.
  - destruct (tool w docker_logout =? 0); reflexivity.
  - cbn [app In]. intuition discriminate.
Qed.

(** The test container starts: the stage passes exactly when the
    container is ready after the pause and the client accepts its
    answer. *)
Lemma run_started port a :
  upstream_ok w u p = true ->
  Text.parse_decimal (testPort n) = Some port ->
  resolve w imageTag = Some a ->
  valid_port port = true ->
  existsb (named (containerName n)) (containers h) = false ->
  existsb (on_port port) (containers h) = false ->
  let c := {| name := containerName n; hostPort := port; containerPort := 8080;
              image := imageTag; uptime := 5; program := a |} in
  let healthy :=
    listening_after 5 a 8080 && (curl_status (answer a Http.get_root) =? 0) in
  let r := run w (pipeline n u p) h in
  result r = (if healthy && (tool w docker_logout =? 0)
              then SUCCESS else FAILURE)
  /\ report r
     = (passed4 ++ [("Deploy and Test", if healthy then Passed else Failed)])%list
  /\ trace (final r)
     = (upstream_trace
          ++ [(docker_run (testPort n) (containerName n) imageTag, 0);
              (sleep 5, 0);
              (or_exit_1 (curl_f (testPort n)), if healthy then 0 else 1)]
          ++ (if healthy then [(docker_stop (containerName n), 0)] else [])
          ++ [(docker_logout, tool w docker_logout)])%list
  /\ containers (host (final r))
     = (map (age 5) (containers h) ++ (if healthy then [] else [c]))%list
  /\ requests (host (final r)) = (requests h ++ [(port, Http.get_root)])%list
  /\ (In "Test successful! Stopping container..." (console (final r))
      <-> healthy = true).
Proof.
  intros Hup Hp Ha Hv Hname Hport c healthy r. subst r.
  destruct (upstream_passed w n u p h Hup) as (b4 & Hh4 & Ht4 & Hc4 & E).
  assert (Hname4 : existsb (named (containerName n)) (containers (host b4)) = false)
    by (rewrite Hh4; exact Hname).
  assert (Hport4 : existsb (on_port port) (containers (host b4)) = false)
    by (rewrite Hh4; exact Hport).
  destruct (deploy_outcome w n b4 port a Hp Ha Hv Hname4 Hport4)
    as (b' & E' & Hcs & Hrq & Hlog & Ht' & Hc').
  fold c in E', Hcs. fold healthy in E', Hcs, Ht', Hc'.
  rewrite E' in E. rewrite run_post, E.
  cbn [fst snd result report final trace console host ran say].
  rewrite Ht', Ht4, Hc', Hc4, Hh4 in *.
  cbn [containers requests with_session] in *.
  split; [|split; [|split; [|split; [|split]]]].
  - destruct healthy; reflexivity.
  - reflexivity.
  - rewrite <- !List.app_assoc. reflexivity.
  - destruct (tool w docker_logout =? 0); exact Hcs.
  - destruct (tool w docker_logout =? 0); exact Hrq.
  - destruct healthy; cbn [app In]; split; intros H;
      try reflexivity; try discriminate; intuition discriminate.
Qed.

End RunCases.

(** ** Outcomes of the probe stage *)

Section ProbeOutcomes.

Import Shell Host Jenkins Pipeline.

(** C3. When the probe command of a run exits non-zero, the Deploy and
    Test stage and the run fail and [docker stop] is never executed;
    when the program of the image is one that comes up at some time,
    so that it has not exited by itself, the test container is still
    among the host's containers when the run is over. *)
Theorem failed_probe_leaves_container w n u p h e :
  e <> 0 ->
  In (or_exit_1 (curl_f (testPort n)), e)
     (trace (final (run w (pipeline n u p) h))) ->
  let r := run w (pipeline n u p) h in
  result r = FAILURE
  /\ In ("Deploy and Test", Failed) (report r)
  /\ (forall e', ~ In (docker_stop (containerName n), e') (trace (final r)))
  /\ (forall a t,
        resolve w imageTag = Some a -> boot a = Some t ->
        existsb (named (containerName n)) (containers (host (final r))) = true).
Proof.
  intros He Hin r. subst r.
  destruct (upstream_ok w u p) eqn:Hup.
  2:{ exfalso.
      destruct (upstream_failed w n u p h Hup) as (rep & b & E & _ & _ & _ & _ & Htr & _).
      rewrite run_post, E in Hin. cbn [fst snd final trace ran say] in Hin.
      apply in_app_or in Hin as [Hin|[Hin|[]]].
      - apply Htr in Hin. intuition discriminate.
      - discriminate. }
  destruct (run_container (testPort n) (containerName n) imageTag w
              (with_session true h)) as [e1 h1] eqn:Hrun.
  destruct (N.eq_dec e1 0) as [->|Hne].
  2:{ exfalso.
      assert (Hr : fst (run_container (testPort n) (containerName n) imageTag w
                          (with_session true h)) <> 0)
        by (rewrite Hrun; exact Hne).
      destruct (run_refused w n u p h Hup Hr) as (_ & _ & Ht & _).
      rewrite Ht in Hin. cbn [app In] in Hin. intuition discriminate. }
  apply run_container_ok in Hrun
    as (port & a & Hp & Ha & Hv & Hname & Hport & _).
  cbn [containers with_session] in Hname, Hport.
  destruct (run_started w n u p h port a Hup Hp Ha Hv Hname Hport)
    as (Hres & Hrep & Ht & Hcs & _).
  destruct (listening_after 5 a 8080
            && (curl_status (answer a Http.get_root) =? 0)).
  - exfalso. rewrite Ht in Hin. cbn [app In] in Hin.
    intuition (try discriminate; congruence).
  - rewrite Hres, Hrep, Ht, Hcs. cbn [andb app]. repeat split.
    + cbn [In]. intuition.
    + intros e' H. cbn [In] in H. intuition discriminate.
    + intros _ _ _ _. rewrite existsb_app. cbn [existsb].
      unfold named at 2. cbn [name].
      now rewrite String.eqb_refl, orb_true_r.
Qed.

Lemma failed_probe_leaves_container_witness :
  let r := run (Scenario.fair (Scenario.answering 500))
               (pipeline 7 "user" "secret") Scenario.idle in
  result r = FAILURE
  /\ In ("Deploy and Test", Failed) (report r)
  /\ (forall e', ~ In (docker_stop (containerName 7), e') (trace (final r)))
  /\ (forall a t,
        resolve (Scenario.fair (Scenario.answering 500)) imageTag = Some a ->
        boot a = Some t ->
        existsb (named (containerName 7)) (containers (host (final r))) = true).
Proof.
  apply (failed_probe_leaves_container
           (Scenario.fair (Scenario.answering 500)) 7 "user" "secret"
           Scenario.idle 1).
  - discriminate.
  - vm_compute. do 7 right. left. reflexivity.
Defined.

(** C4. When the container engine starts the test container and its
    program listens on port 8080 within the five seconds of the pause
    and answers the probe with status 200, the stage passes, [docker
    stop] runs with status 0, no container of that name is left, and
    the host's other containers are the ones it had. *)
Theorem healthy_probe_stops_container w n b a :
  fst (run_container (testPort n) (containerName n) imageTag w (host b)) = 0 ->
  resolve w imageTag = Some a ->
  listening_after 5 a 8080 = true ->
  answer a Http.get_root = 200 ->
  exists b',
    run_steps w (steps (deploy_and_test n)) b = (true, b')
    /\ In (docker_stop (containerName n), 0) (trace b')
    /\ existsb (named (containerName n)) (containers (host b')) = false
    /\ containers (host b') = map (age 5) (containers (host b)).
Proof.
  intros Hrun Ha Hready Hans.
  destruct (run_container (testPort n) (containerName n) imageTag w (host b))
    as [e1 h1] eqn:E. cbn [fst] in Hrun. subst e1.
  apply run_container_ok in E
    as (port & a' & Hp & Ha' & Hv & Hname & Hport & _).
  assert (a' = a) by congruence. subst a'.
  destruct (deploy_outcome w n b port a Hp Ha Hv Hname Hport)
    as (b' & E' & Hcs & _ & _ & Ht & _).
  rewrite Hready, Hans in E', Hcs, Ht.
  change (curl_status 200 =? 0) with true in *. cbn [andb] in E', Hcs, Ht.
  exists b'. split; [exact E'|]. split; [|split].
  - rewrite Ht. apply in_or_app. right. apply in_or_app. right. now left.
  - rewrite Hcs, List.app_nil_r, existsb_named_age. exact Hname.
  - rewrite Hcs. apply List.app_nil_r.
Qed.

Lemma healthy_probe_stops_container_witness :
  exists b',
    run_steps (Scenario.fair Scenario.service) (steps (deploy_and_test 7))
      (start Scenario.idle) = (true, b')
    /\ In (docker_stop (containerName 7), 0) (trace b')
    /\ existsb (named (containerName 7)) (containers (host b')) = false
    /\ containers (host b') = map (age 5) (containers (host (start Scenario.idle))).
Proof.
  apply (healthy_probe_stops_container (Scenario.fair Scenario.service) 7
           (start Scenario.idle) Scenario.service); reflexivity.
Defined.

(** When the test container starts, the stage sends exactly one
    request, a GET of the root on the derived port, whatever comes of
    it, and it fails when nothing listens behind that port after the
    pause or when the status of the answer is below 200 or is 400 or
    more. *)
Theorem probe_once_and_fail_on_error w n b a :
  fst (run_container (testPort n) (containerName n) imageTag w (host b)) = 0 ->
  resolve w imageTag = Some a ->
  exists ok b' port,
    run_steps w (steps (deploy_and_test n)) b = (ok, b')
    /\ Text.parse_decimal (testPort n) = Some port
    /\ requests (host b') = (requests (host b) ++ [(port, Http.get_root)])%list
    /\ (listening_after 5 a 8080 = false
        \/ answer a Http.get_root < 200 \/ 400 <= answer a Http.get_root ->
        ok = false).
Proof.
  intros Hrun Ha.
  destruct (run_container (testPort n) (containerName n) imageTag w (host b))
    as [e1 h1] eqn:E. cbn [fst] in Hrun. subst e1.
  apply run_container_ok in E
    as (port & a' & Hp & Ha' & Hv & Hname & Hport & _).
  assert (a' = a) by congruence. subst a'.
  destruct (deploy_outcome w n b port a Hp Ha Hv Hname Hport)
    as (b' & E' & _ & Hrq & _).
  eexists _, b', port. split; [exact E'|]. split; [exact Hp|].
  split; [exact Hrq|].
  intros [H|H].
  - now rewrite H.
  - apply andb_false_iff. right. rewrite curl_status_zero.
    apply andb_false_iff. rewrite N.leb_gt, N.ltb_ge. tauto.
Qed.

Lemma probe_once_and_fail_on_error_witness :
  exists ok b' port,
    run_steps (Scenario.fair Scenario.crashed) (steps (deploy_and_test 7))
      (start Scenario.idle) = (ok, b')
    /\ Text.parse_decimal (testPort 7) = Some port
    /\ requests (host b')
       = (requests (host (start Scenario.idle)) ++ [(port, Http.get_root)])%list
    /\ (listening_after 5 Scenario.crashed 8080 = false
        \/ answer Scenario.crashed Http.get_root < 200
        \/ 400 <= answer Scenario.crashed Http.get_root ->
        ok = false).
Proof.
  apply (probe_once_and_fail_on_error (Scenario.fair Scenario.crashed) 7
           (start Scenario.idle) Scenario.crashed); reflexivity.
Defined.

(** C5. The probe does not fail on every non-success status: a
    program that answers it with the redirect status 301, which is no
    success status, lets the stage and the whole run pass. *)
Lemma redirect_passes_probe :
  Http.successful (answer (Scenario.answering 301) Http.get_root) = false
  /\ fst (run_steps (Scenario.fair (Scenario.answering 301))
            (steps (deploy_and_test 7)) (start Scenario.idle)) = true
  /\ result (run (Scenario.fair (Scenario.answering 301))
                (pipeline 7 "user" "secret") Scenario.idle) = SUCCESS.
Proof.
  repeat split; reflexivity.
Qed.

End ProbeOutcomes.

(** ** More on the derived port *)

(** The port of the pipeline source is 900..909 for runs 0 to 9 and
    9010..9099 for runs 10 to 99; it is a TCP port exactly for the
    runs below 100. *)
Theorem testPort_valid_iff_below_100 (n : N) :
  exists port,
    Text.parse_decimal (Pipeline.testPort n) = Some port
    /\ (n < 10 -> port = 900 + n)
    /\ (10 <= n < 100 -> port = 9000 + n)
    /\ (Host.valid_port port = true <-> n < 100).
Proof.
  exists (90 * 10 ^ Text.digits n + n). split; [apply parse_testPort|].
  split; [|split].
  - intros H. rewrite digits_below_100 by lia.
    apply N.ltb_lt in H. rewrite H. reflexivity.
  - intros [H1 H2]. rewrite digits_below_100 by lia.
    apply N.ltb_ge in H1. rewrite H1. reflexivity.
  - unfold Host.valid_port. rewrite andb_true_iff, N.leb_le, N.leb_le.
    split.
    + intros [_ H]. destruct (N.lt_ge_cases n 100) as [|Hge]; [assumption|].
      apply testPort_value_large in Hge. lia.
    + intros H. rewrite digits_below_100 by assumption.
      destruct (N.ltb_spec n 10);
        [change (10 ^ 1) with 10|change (10 ^ 2) with 100]. all: lia.
Qed.

(** The port of the README's listing is 9090..9099 when the run
    identifier modulo 100 is below 10 and 90910..90999 otherwise: it is
    a TCP port exactly in the first case. *)
Theorem testPort_README_valid_iff (n : N) :
  exists port,
    Text.parse_decimal (Pipeline.testPort_README n) = Some port
    /\ (n mod 100 < 10 -> port = 9090 + n mod 100)
    /\ (10 <= n mod 100 -> port = 90900 + n mod 100)
    /\ (Host.valid_port port = true <-> n mod 100 < 10).
Proof.
  assert (Hm : n mod 100 < 100) by (apply N.mod_upper_bound; discriminate).
  exists (909 * 10 ^ Text.digits (n mod 100) + n mod 100).
  split; [apply parse_testPort_README|].
  rewrite digits_below_100 by assumption.
  generalize dependent (n mod 100). intros m Hm.
  destruct (N.ltb_spec m 10) as [Hlt|Hge];
    [change (10 ^ 1) with 10|change (10 ^ 2) with 100].
  - repeat split; try lia.
    unfold Host.valid_port. rewrite andb_true_iff, !N.leb_le. lia.
  - repeat split; try lia.
    unfold Host.valid_port. rewrite andb_true_iff, !N.leb_le. lia.
Qed.

(** With the README's formula two runs a hundred apart get the same
    port although their container names differ, so while the container
    of the first is still up the engine refuses that of the second. *)
Theorem testPort_README_collides (a : N) (w : Host.World) (h h' : Host.State) :
  Host.run_container (Pipeline.testPort_README a) (Pipeline.containerName a)
    Pipeline.imageTag w h = (0, h') ->
  Pipeline.testPort_README (a + 100) = Pipeline.testPort_README a
  /\ Pipeline.containerName (a + 100) <> Pipeline.containerName a
  /\ Host.run_container (Pipeline.testPort_README (a + 100))
       (Pipeline.containerName (a + 100)) Pipeline.imageTag w h' = (125, h').
Proof.
  intros Hrun.
  assert (Hsame : Pipeline.testPort_README (a + 100) = Pipeline.testPort_README a).
  { unfold Pipeline.testPort_README.
    replace (a + 100) with (a + 1 * 100) by lia.
    now rewrite N.Div0.mod_add. }
  split; [exact Hsame|]. split.
  - intros H. apply containerName_inj in H. lia.
  - rewrite Hsame.
    apply run_container_ok in Hrun
      as (port & x & Hp & Hx & Hv & Hname & Hport & ->).
    unfold Host.run_container. rewrite Hp, Hx, Hv.
    cbn [Host.containers Host.with_containers].
    rewrite (existsb_app (Host.on_port port)). cbn [existsb].
    unfold Host.on_port at 2. cbn [Host.hostPort]. rewrite N.eqb_refl.
    rewrite orb_true_r, andb_false_r. reflexivity.
Qed.

Lemma testPort_README_collides_witness :
  Pipeline.testPort_README (7 + 100) = Pipeline.testPort_README 7
  /\ Pipeline.containerName (7 + 100) <> Pipeline.containerName 7
  /\ Host.run_container (Pipeline.testPort_README (7 + 100))
       (Pipeline.containerName (7 + 100)) Pipeline.imageTag
       (Scenario.fair Scenario.service)
       (snd (Host.run_container (Pipeline.testPort_README 7)
               (Pipeline.containerName 7) Pipeline.imageTag
               (Scenario.fair Scenario.service) Scenario.idle))
     = (125,
        snd (Host.run_container (Pipeline.testPort_README 7)
               (Pipeline.containerName 7) Pipeline.imageTag
               (Scenario.fair Scenario.service) Scenario.idle)).
Proof.
  apply (testPort_README_collides 7 (Scenario.fair Scenario.service)
           Scenario.idle). reflexivity.
Defined.

(** ** More on whole runs *)

Section RunProperties.

Import Shell Host Jenkins Pipeline.

Lemma run_container_invalid_port port nm img w h p :
  Text.parse_decimal port = Some p -> valid_port p = false ->
  run_container port nm img w h = (125, h).
Proof.
  intros Hp Hv. unfold run_container. rewrite Hp, Hv.
  destruct (resolve w img); reflexivity.
Qed.

(** From run 100 on no run can pass: whatever the tools and the image
    do, the run fails, the probe stage fails or is skipped, no request
    is sent and the host's containers are left as they were. *)
Theorem run_fails_from_run_100 w n u p h :
  100 <= n ->
  let r := run w (pipeline n u p) h in
  result r = FAILURE
  /\ (In ("Deploy and Test", Failed) (report r)
      \/ In ("Deploy and Test", Skipped) (report r))
  /\ (forall e, ~ In (or_exit_1 (curl_f (testPort n)), e) (trace (final r)))
  /\ containers (host (final r)) = containers h
  /\ requests (host (final r)) = requests h.
Proof.
  intros Hn r. subst r.
  destruct (upstream_ok w u p) eqn:Hup.
  - assert (Hr : fst (run_container (testPort n) (containerName n) imageTag w
                        (with_session true h)) <> 0).
    { rewrite (run_container_invalid_port _ _ _ _ _ _ (parse_testPort n)).
      - discriminate.
      - unfold valid_port. apply andb_false_iff. right. apply N.leb_gt.
        now apply testPort_value_large. }
    destruct (run_refused w n u p h Hup Hr) as (Hres & Hrep & Ht & Hcs & Hrq & _).
    rewrite Hres, Hrep, Ht, Hcs, Hrq. repeat split.
    + left. cbn [app In]. intuition.
    + intros e H. cbn [app In] in H. intuition discriminate.
  - destruct (upstream_failed w n u p h Hup)
      as (rep & b & E & Hskip & Hfail & Hcs & Hrq & Htr & _).
    rewrite run_post, E. cbn [fst snd result report final trace host ran say].
    rewrite Hfail. cbn [andb]. repeat split.
    + now right.
    + intros e H. apply in_app_or in H as [H|[H|[]]].
      * apply Htr in H. intuition discriminate.
      * discriminate.
    + destruct (tool w docker_logout =? 0); exact Hcs.
    + destruct (tool w docker_logout =? 0); exact Hrq.
Qed.

Lemma run_fails_from_run_100_witness :
  let r := run (Scenario.fair Scenario.service) (pipeline 100 "user" "secret")
               Scenario.idle in
  result r = FAILURE
  /\ (In ("Deploy and Test", Failed) (report r)
      \/ In ("Deploy and Test", Skipped) (report r))
  /\ (forall e, ~ In (or_exit_1 (curl_f (testPort 100)), e) (trace (final r)))
  /\ containers (host (final r)) = containers Scenario.idle
  /\ requests (host (final r)) = requests Scenario.idle.
Proof.
  apply (run_fails_from_run_100 (Scenario.fair Scenario.service) 100
           "user" "secret" Scenario.idle). lia.
Defined.

(** The pipeline passes on the service it is written for: when the
    tools succeed, the image runs a program that answers as [app.js]
    does, on the port [app.js] listens on, within five seconds, the run
    is below 100 and its name and port are free on the host, then every
    stage passes, the run succeeds, the test container is gone and the
    registry session is closed. *)
Theorem pipeline_passes_on_the_service w n u p h a t :
  upstream_ok w u p = true ->
  tool w docker_logout = 0 ->
  resolve w imageTag = Some a ->
  boot a = Some t -> t <= 5 ->
  binds a = App.PORT ->
  answer a = App.status_of ->
  n < 100 ->
  existsb (named (containerName n)) (containers h) = false ->
  (forall port, Text.parse_decimal (testPort n) = Some port ->
                existsb (on_port port) (containers h) = false) ->
  let r := run w (pipeline n u p) h in
  result r = SUCCESS
  /\ map snd (report r) = [Passed; Passed; Passed; Passed; Passed]
  /\ containers (host (final r)) = map (age 5) (containers h)
  /\ logged_in (host (final r)) = false.
Proof.
  intros Hup Hlogout Ha Hboot Ht Hbinds Hans Hn Hname Hport r. subst r.
  destruct (testPort_value_small n Hn) as (port & Hp & Hv).
  specialize (Hport port Hp).
  destruct (run_started w n u p h port a Hup Hp Ha Hv Hname Hport)
    as (Hres & Hrep & _ & Hcs & _).
  assert (Hhealthy : listening_after 5 a 8080
                     && (curl_status (answer a Http.get_root) =? 0) = true).
  { unfold listening_after. rewrite Hboot, Hbinds, Hans, status_of_get_root.
    apply N.leb_le in Ht. now rewrite Ht. }
  rewrite Hhealthy in *. rewrite Hlogout in Hres.
  rewrite Hres, Hrep, Hcs, List.app_nil_r. repeat split.
  rewrite run_post. cbn [final host ran]. now rewrite Hlogout.
Qed.

Lemma pipeline_passes_on_the_service_witness :
  let r := run (Scenario.fair Scenario.service) (pipeline 7 "user" "secret")
               Scenario.idle in
  result r = SUCCESS
  /\ map snd (report r) = [Passed; Passed; Passed; Passed; Passed]
  /\ containers (host (final r)) = map (age 5) (containers Scenario.idle)
  /\ logged_in (host (final r)) = false.
Proof.
  apply (pipeline_passes_on_the_service (Scenario.fair Scenario.service) 7
           "user" "secret" Scenario.idle Scenario.service 1);
    try reflexivity; try lia.
Defined.

(** Once the test container has started, the probe stage passes exactly
    when the program listens on port 8080 after the five seconds of the
    pause and answers the probe with a status from 200 to 399. *)
Theorem stage_passes_iff_healthy w n b a :
  fst (run_container (testPort n) (containerName n) imageTag w (host b)) = 0 ->
  resolve w imageTag = Some a ->
  fst (run_steps w (steps (deploy_and_test n)) b) = true
  <-> listening_after 5 a 8080 = true
      /\ 200 <= answer a Http.get_root < 400.
Proof.
  intros Hrun Ha.
  destruct (run_container (testPort n) (containerName n) imageTag w (host b))
    as [e1 h1] eqn:E. cbn [fst] in Hrun. subst e1.
  apply run_container_ok in E
    as (port & a' & Hp & Ha' & Hv & Hname & Hport & _).
  assert (a' = a) by congruence. subst a'.
  destruct (deploy_outcome w n b port a Hp Ha Hv Hname Hport)
    as (b' & E' & _).
  rewrite E'. cbn [fst].
  now rewrite curl_status_zero, !andb_true_iff, N.leb_le, N.ltb_lt.
Qed.

Lemma stage_passes_iff_healthy_witness :
  fst (run_steps (Scenario.fair Scenario.service)
         (steps (deploy_and_test 7)) (start Scenario.idle)) = true
  <-> listening_after 5 Scenario.service 8080 = true
      /\ 200 <= answer Scenario.service Http.get_root < 400.
Proof.
  apply (stage_passes_iff_healthy (Scenario.fair Scenario.service) 7
           (start Scenario.idle) Scenario.service); reflexivity.
Defined.

(** A run succeeds exactly when the five commands before the probe
    stage exit 0, the container engine starts the test container, the
    program listens after the pause and answers with a status from
    200 to 399, and the final logout exits 0. *)
Theorem run_succeeds_iff w n u p h :
  result (run w (pipeline n u p) h) = SUCCESS
  <-> upstream_ok w u p = true
      /\ fst (run_container (testPort n) (containerName n) imageTag w
                (with_session true h)) = 0
      /\ (exists a, resolve w imageTag = Some a
                    /\ listening_after 5 a 8080 = true
                    /\ 200 <= answer a Http.get_root < 400)
      /\ tool w docker_logout = 0.
Proof.
  destruct (upstream_ok w u p) eqn:Hup.
  2:{ destruct (upstream_failed w n u p h Hup) as (rep & b & E & _ & Hfail & _).
      rewrite run_post, E. cbn [fst result]. rewrite Hfail. cbn [andb].
      split; [discriminate|]. intros (H & _). discriminate. }
  destruct (run_container (testPort n) (containerName n) imageTag w
              (with_session true h)) as [e1 h1] eqn:Hrun.
  destruct (N.eq_dec e1 0) as [->|Hne].
  2:{ assert (Hr : fst (run_container (testPort n) (containerName n) imageTag w
                          (with_session true h)) <> 0)
        by (rewrite Hrun; exact Hne).
      destruct (run_refused w n u p h Hup Hr) as (Hres & _). rewrite Hres.
      cbn [fst]. split; [discriminate|]. intros (_ & H & _). contradiction. }
  apply run_container_ok in Hrun
    as (port & a & Hp & Ha & Hv & Hname & Hport & _).
  cbn [containers with_session] in Hname, Hport.
  destruct (run_started w n u p h port a Hup Hp Ha Hv Hname Hport) as (Hres & _).
  rewrite Hres. cbn [fst].
  rewrite curl_status_zero.
  destruct (listening_after 5 a 8080) eqn:Hl; cbn [andb].
  - destruct (N.leb_spec 200 (answer a Http.get_root)) as [Hlo|Hlo],
             (N.ltb_spec (answer a Http.get_root) 400) as [Hlt|Hge];
      cbn [andb].
    + destruct (N.eqb_spec (tool w docker_logout) 0) as [He|He].
      * split; [|reflexivity]. intros _. repeat split; eauto.
      * split; [discriminate|]. intros (_ & _ & _ & H). contradiction.
    + split; [discriminate|]. intros (_ & _ & (a' & Ha' & _ & Hr) & _).
      assert (a' = a) by congruence. subst a'. lia.
    + split; [discriminate|]. intros (_ & _ & (a' & Ha' & _ & Hr) & _).
      assert (a' = a) by congruence. subst a'. lia.
    + split; [discriminate|]. intros (_ & _ & (a' & Ha' & _ & Hr) & _).
      assert (a' = a) by congruence. subst a'. lia.
  - split; [discriminate|]. intros (_ & _ & (a' & Ha' & Hl' & _) & _).
    assert (a' = a) by congruence. subst a'. congruence.
Qed.

(** Two different runs do not stand in each other's way: when the
    engine accepts the test container of run [a], it still accepts
    that of a different run [b] that it would have accepted before. *)
Theorem distinct_runs_can_overlap a b w h ha :
  a <> b ->
  run_container (testPort a) (containerName a) imageTag w h = (0, ha) ->
  fst (run_container (testPort b) (containerName b) imageTag w h) = 0 ->
  fst (run_container (testPort b) (containerName b) imageTag w ha) = 0.
Proof.
  intros Hab Ha Hb.
  apply run_container_ok in Ha as (pa & x & Hpa & Hx & Hva & Hna & Hpta & ->).
  destruct (run_container (testPort b) (containerName b) imageTag w h)
    as [e hb] eqn:E. cbn [fst] in Hb. subst e.
  apply run_container_ok in E as (pb & y & Hpb & Hy & Hvb & Hnb & Hptb & _).
  unfold run_container. rewrite Hpb, Hy, Hvb.
  cbn [containers with_containers].
  rewrite !existsb_app, Hnb, Hptb. cbn [existsb orb].
  unfold named, on_port. cbn [name hostPort].
  assert (Hname : String.eqb (containerName a) (containerName b) = false).
  { apply String.eqb_neq. intros H. apply Hab. now apply containerName_inj. }
  assert (Hport : (pa =? pb) = false).
  { apply N.eqb_neq. intros H. apply Hab. apply parse_testPort_inj. congruence. }
  rewrite Hname, Hport. reflexivity.
Qed.

Lemma distinct_runs_can_overlap_witness :
  fst (run_container (testPort 8) (containerName 8) imageTag
         (Scenario.fair Scenario.service)
         (snd (run_container (testPort 7) (containerName 7) imageTag
                 (Scenario.fair Scenario.service) Scenario.idle))) = 0.
Proof.
  apply (distinct_runs_can_overlap 7 8 (Scenario.fair Scenario.service)
           Scenario.idle); [lia|reflexivity|reflexivity].
Defined.

(** When the final logout exits 0 the host holds no registry session
    after the run, whatever happened before. *)
Theorem no_session_after_logout w n u p h :
  tool w docker_logout = 0 ->
  logged_in (host (final (run w (pipeline n u p) h))) = false.
Proof.
  intros H. rewrite run_post. cbn [final host ran]. now rewrite H.
Qed.

Lemma no_session_after_logout_witness :
  logged_in (host (final (run (Scenario.failing_tests Scenario.service)
                              (pipeline 7 "user" "secret")
                              {| containers := []; logged_in := true;
                                 requests := [] |}))) = false.
Proof.
  apply no_session_after_logout. reflexivity.
Defined.

End RunProperties.

(** ** Order of execution *)

Section ExecutionOrder.

Import Shell Host Jenkins Pipeline.

Let zero (ce : Command * N) : Prop := snd ce = 0.

(** A block runs its scripts in order, each after the previous one
    exited 0, and stops at the first that does not. *)
Lemma run_steps_prefix w ss : forall b ok b',
  run_steps w ss b = (ok, b') ->
  exists tr,
    trace b' = (trace b ++ tr)%list
    /\ map fst tr = firstn (List.length tr) (scripts ss)
    /\ (if ok then List.length tr = List.length (scripts ss) /\ Forall zero tr
        else exists pre c e,
               tr = (pre ++ [(c, e)])%list /\ Forall zero pre /\ e <> 0).
Proof.
  induction ss as [|s ss IH]; intros b ok b' H; cbn [run_steps] in H.
  - injection H as <- <-. exists []. rewrite List.app_nil_r.
    repeat split. constructor.
  - destruct s as [m|c]; cbn [scripts].
    + apply IH in H as (tr & Ht & Hm & Hok). exists tr. now repeat split.
    + destruct (Host.exec w c (host b)) as [e h].
      destruct (N.eqb_spec e 0) as [He|He].
      * apply IH in H as (tr & Ht & Hm & Hok). exists ((c, e) :: tr).
        cbn [trace ran] in Ht. rewrite <- List.app_assoc in Ht.
        split; [exact Ht|]. split.
        -- cbn [map fst List.length firstn]. now rewrite Hm.
        -- destruct ok.
           ++ destruct Hok as [Hl Hz]. split; [cbn [List.length]; now rewrite Hl|].
              constructor; assumption.
           ++ destruct Hok as (pre & c' & e' & -> & Hz & Hne).
              exists ((c, e) :: pre), c', e'. repeat split; try assumption.
              constructor; assumption.
      * injection H as <- <-. exists [(c, e)]. split; [reflexivity|].
        split; [reflexivity|].
        exists [], c, e. repeat split; [constructor|assumption].
Qed.

Lemma run_stages_prefix w sts : forall b rep b',
  run_stages w sts b = (rep, b') ->
  exists tr,
    trace b' = (trace b ++ tr)%list
    /\ map fst tr = firstn (List.length tr) (stage_scripts sts)
    /\ (if forallb (fun r => status_eqb (snd r) Passed) rep
        then List.length tr = List.length (stage_scripts sts) /\ Forall zero tr
        else exists pre c e,
               tr = (pre ++ [(c, e)])%list /\ Forall zero pre /\ e <> 0).
Proof.
  induction sts as [|st sts IH]; intros b rep b' H; cbn [run_stages] in H.
  - injection H as <- <-. exists []. rewrite List.app_nil_r.
    repeat split. constructor.
  - destruct (run_steps w (steps st) b) as [ok b1] eqn:E1.
    apply run_steps_prefix in E1 as (tr1 & Ht1 & Hm1 & Hok1).
    unfold stage_scripts. cbn [flat_map]. fold (stage_scripts sts).
    destruct ok.
    + destruct Hok1 as [Hl1 Hz1].
      rewrite Hl1, firstn_all in Hm1.
      destruct (run_stages w sts b1) as [r b2] eqn:E2.
      injection H as <- <-.
      apply IH in E2 as (tr2 & Ht2 & Hm2 & Hok2).
      exists (tr1 ++ tr2)%list. split; [now rewrite Ht2, Ht1, List.app_assoc|].
      split.
      * rewrite map_app, List.length_app, Hm1, Hm2, Hl1. now rewrite firstn_app_2.
      * cbn [forallb snd status_eqb andb].
        destruct (forallb _ r).
        -- destruct Hok2 as [Hl2 Hz2]. split.
           ++ now rewrite !List.length_app, Hl1, Hl2.
           ++ apply Forall_app. now split.
        -- destruct Hok2 as (pre & c & e & -> & Hz & Hne).
           exists (tr1 ++ pre)%list, c, e. rewrite List.app_assoc.
           repeat split; try assumption. apply Forall_app. now split.
    + injection H as <- <-. exists tr1. split; [exact Ht1|].
      cbn [forallb snd status_eqb andb]. split; [|exact Hok1].
      assert (Hle : (List.length tr1 <= List.length (scripts (steps st)))%nat).
      { apply (f_equal (@List.length _)) in Hm1.
        rewrite List.length_map, List.length_firstn in Hm1. lia. }
      rewrite firstn_app.
      replace (List.length tr1 - List.length (scripts (steps st)))%nat with 0%nat by lia.
      cbn [firstn]. now rewrite List.app_nil_r.
Qed.

(** The stages run their nine commands in the order of the file, each
    only after the previous one exited 0; the first non-zero exit ends
    the stages, and only the logout follows. *)
Theorem commands_run_in_order_until_first_failure w n u p h :
  let r := run w (pipeline n u p) h in
  exists tr,
    trace (final r) = (tr ++ [(docker_logout, tool w docker_logout)])%list
    /\ map fst tr
       = firstn (List.length tr)
           [npm_ci true; npm_test; docker_build imageTag; docker_login u p;
            docker_push imageTag;
            docker_run (testPort n) (containerName n) imageTag; sleep 5;
            or_exit_1 (curl_f (testPort n)); docker_stop (containerName n)]
    /\ (if forallb (fun s => status_eqb (snd s) Passed) (report r)
        then List.length tr = 9%nat /\ Forall (fun ce => snd ce = 0) tr
        else exists pre c e,
               tr = (pre ++ [(c, e)])%list
               /\ Forall (fun ce => snd ce = 0) pre /\ e <> 0).
Proof.
  intros r. subst r. rewrite run_post. cbn [final report trace ran say].
  destruct (run_stages w (stages (pipeline n u p)) (start h)) as [rep b] eqn:E.
  apply run_stages_prefix in E as (tr & Ht & Hm & Hok).
  cbn [fst snd]. exists tr. rewrite Ht. cbn [trace start app].
  split; [reflexivity|]. split; [exact Hm|].
  destruct (forallb _ rep); exact Hok.
Qed.

End ExecutionOrder.

(** ** Reports and footprint *)

Section Footprint.

Import Shell Host Jenkins Pipeline.

(** Stages pass up to the first that fails; the ones after it are
    skipped. *)
Lemma run_stages_report w sts : forall b rep b',
  run_stages w sts b = (rep, b') ->
  exists k,
    (k <= List.length sts)%nat
    /\ rep = (map (fun st => (label st, Passed)) (firstn k sts)
              ++ match skipn k sts with
                 | [] => []
                 | st :: rest =>
                     (label st, Failed) :: map (fun s => (label s, Skipped)) rest
                 end)%list.
Proof.
  induction sts as [|st sts IH]; intros b rep b' H; cbn [run_stages] in H.
  - injection H as <- <-. exists 0%nat. split; [apply le_n|reflexivity].
  - destruct (run_steps w (steps st) b) as [[|] b1].
    + destruct (run_stages w sts b1) as [r b2] eqn:E. injection H as <- <-.
      apply IH in E as (k & Hk & ->). exists (S k).
      split; [cbn [List.length]; lia|reflexivity].
    + injection H as <- <-. exists 0%nat.
      split; [cbn [List.length]; lia|reflexivity].
Qed.

(** The report of a run lists the five stages in the order of the
    file: some passed, then at most one failed, the rest skipped. *)
Theorem report_shape w n u p h :
  let r := run w (pipeline n u p) h in
  map fst (report r)
  = ["Install Dependencies"; "Run Tests"; "Build Docker Image";
     "Push to Docker Hub"; "Deploy and Test"]
  /\ exists k,
       (k <= 5)%nat
       /\ map snd (report r)
          = (repeat Passed k
             ++ match (5 - k)%nat with
                | O => []
                | S m => Failed :: repeat Skipped m
                end)%list.
Proof.
  intros r. subst r. rewrite run_post. cbn [report].
  destruct (run_stages w (stages (pipeline n u p)) (start h)) as [rep b] eqn:E.
  apply run_stages_report in E as (k & Hk & ->). cbn [fst].
  cbn [stages pipeline List.length] in *.
  assert (Hcases : (k = 0 \/ k = 1 \/ k = 2 \/ k = 3 \/ k = 4 \/ k = 5)%nat) by lia.
  split.
  - destruct Hcases as [->|[->|[->|[->|[->| ->]]]]]; reflexivity.
  - exists k. split; [exact Hk|].
    destruct Hcases as [->|[->|[->|[->|[->| ->]]]]]; reflexivity.
Qed.

(** A run touches no container but its own and sends at most one
    request: at its end the host has the containers it had, with at
    most the test container of this run added, and at most one GET of
    the root on the derived port more. *)
Theorem run_footprint w n u p h :
  let r := run w (pipeline n u p) h in
  (containers (host (final r)) = containers h
   \/ containers (host (final r)) = map (age 5) (containers h)
   \/ exists c, name c = containerName n
                /\ containers (host (final r))
                   = (map (age 5) (containers h) ++ [c])%list)
  /\ (requests (host (final r)) = requests h
      \/ exists port, Text.parse_decimal (testPort n) = Some port
                      /\ requests (host (final r))
                         = (requests h ++ [(port, Http.get_root)])%list).
Proof.
  intros r. subst r.
  destruct (upstream_ok w u p) eqn:Hup.
  2:{ assert (H : tool w (npm_ci true) <> 0 \/ tool w npm_test <> 0
                  \/ tool w (docker_build imageTag) <> 0
                  \/ tool w (docker_login u p) <> 0
                  \/ tool w (docker_push imageTag) <> 0).
      { unfold upstream_ok in Hup.
        rewrite !andb_false_iff, !N.eqb_neq in Hup. tauto. }
      destruct (upstream_failed w n u p h Hup) as (rep & b & E & _ & _ & Hcs & Hrq & _).
      rewrite run_post, E. cbn [snd final host ran].
      destruct (tool w docker_logout =? 0); cbn [containers requests with_session];
        rewrite ?Hcs, ?Hrq; split; now left. }
  destruct (run_container (testPort n) (containerName n) imageTag w
              (with_session true h)) as [e1 h1] eqn:Hrun.
  destruct (N.eq_dec e1 0) as [->|Hne].
  2:{ assert (Hr : fst (run_container (testPort n) (containerName n) imageTag w
                          (with_session true h)) <> 0)
        by (rewrite Hrun; exact Hne).
      destruct (run_refused w n u p h Hup Hr) as (_ & _ & _ & Hcs & Hrq & _).
      rewrite Hcs, Hrq. split; now left. }
  apply run_container_ok in Hrun
    as (port & a & Hp & Ha & Hv & Hname & Hport & _).
  cbn [containers with_session] in Hname, Hport.
  destruct (run_started w n u p h port a Hup Hp Ha Hv Hname Hport)
    as (_ & _ & _ & Hcs & Hrq & _).
  rewrite Hcs, Hrq. split.
  - destruct (_ && _).
    + right. left. apply List.app_nil_r.
    + right. right. eexists. split; [|reflexivity]. reflexivity.
  - right. exists port. now split.
Qed.

(** The console shows the line [Test successful! Stopping
    container...] exactly in the runs whose probe command exited 0. *)
Theorem success_line_iff_probe_passed w n u p h :
  let r := run w (pipeline n u p) h in
  In "Test successful! Stopping container..." (console (final r))
  <-> In (or_exit_1 (curl_f (testPort n)), 0) (trace (final r)).
Proof.
  intros r. subst r.
  destruct (upstream_ok w u p) eqn:Hup.
  2:{ destruct (upstream_failed w n u p h Hup)
        as (rep & b & E & _ & _ & _ & _ & Htr & Hcon).
      rewrite run_post, E. cbn [snd final console trace ran say].
      split; intros H; exfalso; apply in_app_or in H as [H|[H|[]]].
      - apply Hcon in H. intuition discriminate.
      - discriminate.
      - apply Htr in H. intuition discriminate.
      - discriminate. }
  destruct (run_container (testPort n) (containerName n) imageTag w
              (with_session true h)) as [e1 h1] eqn:Hrun.
  destruct (N.eq_dec e1 0) as [->|Hne].
  2:{ assert (Hr : fst (run_container (testPort n) (containerName n) imageTag w
                          (with_session true h)) <> 0)
        by (rewrite Hrun; exact Hne).
      destruct (run_refused w n u p h Hup Hr) as (_ & _ & Ht & _ & _ & Hcon).
      rewrite Ht. split; intros H; exfalso; [now apply Hcon|].
      cbn [app In] in H. intuition discriminate. }
  apply run_container_ok in Hrun
    as (port & a & Hp & Ha & Hv & Hname & Hport & _).
  cbn [containers with_session] in Hname, Hport.
  destruct (run_started w n u p h port a Hup Hp Ha Hv Hname Hport)
    as (_ & _ & Ht & _ & _ & Hcon).
  rewrite Hcon, Ht.
  destruct (listening_after 5 a 8080
            && (curl_status (answer a Http.get_root) =? 0));
    cbn [app In]; split; intros H; try discriminate.
  - intuition.
  - reflexivity.
  - exfalso. intuition (try discriminate; congruence).
Qed.

End Footprint.

(** ** More on the service *)

Lemma method_eqb_eq (a b : Http.Method) : Http.method_eqb a b = true <-> a = b.
Proof.
  destruct a, b; cbn; split; intros H; try reflexivity; discriminate.
Qed.






